(** * businessclub-backend: the chat relay of [server.js]

    A shallow embedding of the request pipeline of [server.js]
    ([sanitizeInput], [validateMessages], [logMetrics] and the
    [POST /api/chat] handler) together with the properties of the
    pipeline that hold on the code.

    JavaScript strings are sequences of UTF-16 code units, JavaScript
    numbers are IEEE 754 binary64 floats, and a thrown [Error] is the
    string it carries in [message]: the handler looks at nothing else. *)

From Stdlib Require Import List NArith ZArith Bool Lia String Ascii.
From Stdlib Require Import DecimalString.
From Stdlib Require Import Floats.PrimFloat Numbers.Cyclic.Int63.Uint63.
Import ListNotations.

Set Warnings "-register-all,-notation-for-abbreviation".
Local Open Scope N_scope.

(** ** Strings *)

Module JsString.

(** One UTF-16 code unit. *)
Definition code_unit := N.

Definition t := list code_unit.

(** A source literal whose characters are all below U+0100. *)
Definition lit (s : string) : t :=
  map (fun c => N_of_ascii c) (list_ascii_of_string s).

Definition eqb (a b : t) : bool :=
  if list_eq_dec N.eq_dec a b then true else false.

(** [WhiteSpace] and [LineTerminator] of ECMAScript: what
    [String.prototype.trim] strips. *)
Definition is_space (c : code_unit) : bool :=
  ((9 <=? c) && (c <=? 13))
  || (c =? 32) || (c =? 160) || (c =? 5760)
  || ((8192 <=? c) && (c <=? 8202))
  || (c =? 8232) || (c =? 8233) || (c =? 8239) || (c =? 8287)
  || (c =? 12288) || (c =? 65279).

Fixpoint trimStart (s : t) : t :=
  match s with
  | [] => []
  | c :: s' => if is_space c then trimStart s' else s
  end.

Fixpoint trimEnd (s : t) : t :=
  match s with
  | [] => []
  | c :: s' =>
      match trimEnd s' with
      | [] => if is_space c then [] else [c]
      | r => c :: r
      end
  end.

Definition trim (s : t) : t := trimEnd (trimStart s).

(** [s.slice(0, n)] for a non-negative [n]. *)
Definition slice0 (n : nat) (s : t) : t := firstn n s.

Fixpoint startsWith (p s : t) : bool :=
  match p, s with
  | [], _ => true
  | _ :: _, [] => false
  | a :: p', b :: s' => (a =? b) && startsWith p' s'
  end.

(** [s.includes(p)] *)
Fixpoint includes (p s : t) : bool :=
  startsWith p s ||
  match s with
  | [] => false
  | _ :: s' => includes p s'
  end.

(** Decimal rendering of an integer, as in a template literal. *)
Definition of_Z (z : Z) : t := lit (NilEmpty.string_of_int (Z.to_int z)).

(** The first, respectively last, code unit is white space. *)
Definition starts_with_space (s : t) : bool :=
  match s with
  | [] => false
  | c :: _ => is_space c
  end.

Fixpoint ends_with_space (s : t) : bool :=
  match s with
  | [] => false
  | [c] => is_space c
  | _ :: s' => ends_with_space s'
  end.

End JsString.

Arguments JsString.slice0 : simpl never.

Notation jsstring := JsString.t.
Notation "'js' s" := (JsString.lit s%string) (at level 9, s at level 0).

(** ** Values *)

(** The values a parsed JSON body is made of, and [undefined] for what
    is not there. *)
Inductive value : Type :=
| VUndefined
| VNull
| VBool (b : bool)
| VNumber (x : float)
| VString (s : jsstring)
| VArray (items : list value)
| VObject (fields : list (jsstring * value)).

Definition number_of_nat (n : nat) : float :=
  PrimFloat.of_uint63 (Uint63.of_Z (Z.of_nat n)).

(** [ToBoolean] *)
Definition truthy (v : value) : bool :=
  match v with
  | VUndefined | VNull => false
  | VBool b => b
  | VNumber x => negb (PrimFloat.eqb x PrimFloat.zero || PrimFloat.is_nan x)
  | VString s => negb (JsString.eqb s [])
  | VArray _ | VObject _ => true
  end.

(** ** Exceptions *)

(** A computation that returns or throws an [Error] with a message. *)
Inductive result (A : Type) : Type :=
| Return (a : A)
| Throw (message : jsstring).

Arguments Return {A} a.
Arguments Throw {A} message.

Definition rbind {A B} (r : result A) (k : A -> result B) : result B :=
  match r with
  | Return a => k a
  | Throw e => Throw e
  end.

Declare Scope result_scope.
Delimit Scope result_scope with result.
Notation "'let?' x := r 'in' k" := (rbind r (fun x => k))
  (at level 10, x name, r at level 100, k at level 200) : result_scope.

(** ** Property access *)

(** What V8 puts in the [TypeError] of a property read on [null] or
    [undefined]. *)
Definition TypeError_read (v : value) (key : string) : jsstring :=
  js"Cannot read properties of "
  ++ (match v with VNull => js"null" | _ => js"undefined" end)
  ++ js" (reading '" ++ js key ++ js"')".

Fixpoint lookup (key : jsstring) (fields : list (jsstring * value)) : value :=
  match fields with
  | [] => VUndefined
  | (k, v) :: rest => if JsString.eqb k key then v else lookup key rest
  end.

(** [v.key] for a [key] that is neither an index nor a member of a
    built-in prototype other than [length]: the keys [server.js] reads
    are [messages], [systemPrompt], [role], [content], [length],
    [usage], [model] and [text]. *)
Definition get (v : value) (key : string) : result value :=
  match v with
  | VUndefined | VNull => Throw (TypeError_read v key)
  | VBool _ | VNumber _ => Return VUndefined
  | VString s =>
      Return (if String.eqb key "length"
              then VNumber (number_of_nat (List.length s)) else VUndefined)
  | VArray items =>
      Return (if String.eqb key "length"
              then VNumber (number_of_nat (List.length items)) else VUndefined)
  | VObject fields => Return (lookup (js key) fields)
  end.

(** [v[0]] *)
Definition get0 (v : value) : result value :=
  match v with
  | VUndefined | VNull => Throw (TypeError_read v "0")
  | VBool _ | VNumber _ => Return VUndefined
  | VString s =>
      Return (match s with [] => VUndefined | c :: _ => VString [c] end)
  | VArray items =>
      Return (match items with [] => VUndefined | x :: _ => x end)
  | VObject fields => Return (lookup (js"0") fields)
  end.

(** [v?.length] *)
Definition optional_length (v : value) : result value :=
  match v with
  | VUndefined | VNull => Return VUndefined
  | _ => get v "length"
  end.

(** ** Utility functions *)

(** [sanitizeInput] *)
Definition sanitizeInput (text : value) : jsstring :=
  match text with
  | VString s => JsString.slice0 4000 (JsString.trim s)
  | _ => []
  end.

Module Msg.
Definition InvalidFormat : jsstring := js"Messages deve essere un array".
Definition EmptyConversation : jsstring :=
  js"Messages non pu" ++ [242] ++ js" essere vuoto".
Definition TooManyMessages : jsstring :=
  js"Troppe messaggi nella conversazione".
Definition MalformedMessage : jsstring := js"Formato messaggio non valido".
Definition InvalidRole : jsstring := js"Role non valido".
Definition MissingMessages : jsstring := js"Parametro messages mancante".
Definition UpstreamAuth : jsstring :=
  js"Errore di autenticazione con il servizio AI".
Definition UpstreamRateLimited : jsstring :=
  js"Troppi richieste al servizio AI. Riprova tra poco.".
Definition ServerError : jsstring := js"Errore del server. Riprova tra poco.".
End Msg.

(** [['user', 'assistant'].includes(role)] *)
Definition is_known_role (role : value) : bool :=
  match role with
  | VString s => JsString.eqb s (js"user") || JsString.eqb s (js"assistant")
  | _ => false
  end.

Local Open Scope result_scope.

(** The body of the [for ... of] loop of [validateMessages]. *)
Definition check_message (msg : value) : result unit :=
  let? role := get msg "role" in
  let? malformed :=
    (if negb (truthy role) then Return true
     else let? content := get msg "content" in Return (negb (truthy content)))
  in
  if (malformed : bool) then Throw Msg.MalformedMessage
  else
    let? role := get msg "role" in
    if negb (is_known_role role) then Throw Msg.InvalidRole
    else Return tt.

Fixpoint check_messages (msgs : list value) : result unit :=
  match msgs with
  | [] => Return tt
  | msg :: rest => let? _ := check_message msg in check_messages rest
  end.

(** [validateMessages] *)
Definition validateMessages (messages : value) : result bool :=
  match messages with
  | VArray items =>
      if (List.length items =? 0)%nat then Throw Msg.EmptyConversation
      else if (50 <? List.length items)%nat then Throw Msg.TooManyMessages
      else let? _ := check_messages items in Return true
  | _ => Throw Msg.InvalidFormat
  end.

(** ** Configuration *)

(** [CONFIG], read once from the process environment. *)
Record CONFIG : Type := {
  ANTHROPIC_API_KEY : jsstring;
  ANTHROPIC_API_URL : jsstring;
  MODEL : jsstring;
  MAX_TOKENS : float
}.

(** The initialiser of [CONFIG] followed by the start-up check of the
    key: [None] is [process.exit(1)].  An environment variable is a
    string or is not set; [parseInt] is the built-in. *)
Definition load_CONFIG (parseInt : option jsstring -> float)
    (env_ANTHROPIC_API_KEY env_AI_MODEL env_MAX_TOKENS : option jsstring)
    : option CONFIG :=
  match env_ANTHROPIC_API_KEY with
  | None | Some [] => None
  | Some key =>
      Some {| ANTHROPIC_API_KEY := key;
              ANTHROPIC_API_URL := js"https://api.anthropic.com/v1/messages";
              MODEL := match env_AI_MODEL with
                       | None | Some [] => js"claude-sonnet-4-20250514"
                       | Some m => m
                       end;
              MAX_TOKENS := let n := parseInt env_MAX_TOKENS in
                            if truthy (VNumber n) then n
                            else number_of_nat 1024 |}
  end.

(** ** The outside of the handler *)

(** One sanitized entry of the conversation sent upstream. *)
Record Message : Type := { role : value; content : jsstring }.

(** [requestBody]: [system] is [None] while the object has no such
    property. *)
Record UpstreamRequest : Type := {
  model : jsstring;
  max_tokens : float;
  messages : list Message;
  system : option jsstring
}.

(** The arguments of one [fetch]. *)
Record fetch_call : Type := {
  url : jsstring;
  x_api_key : jsstring;
  payload : UpstreamRequest
}.

(** What [fetch] resolved to: the status, and what [response.json()]
    gives, the parsed body or the rejection of a body that does not
    parse. *)
Record upstream_response : Type := {
  up_status : N;
  up_json : result value
}.

(** [response.ok] *)
Definition up_ok (r : upstream_response) : bool :=
  (200 <=? up_status r) && (up_status r <=? 299).

(** The line [logMetrics] prints. *)
Record metrics : Type := {
  timestamp : Z;
  ip : jsstring;
  success : bool;
  responseTime : jsstring;
  messagesCount : value
}.

Inductive response_body : Type :=
| ChatOk (message usage model : value)
| ChatError (error : jsstring) (details : option jsstring).

Record http_response : Type := {
  status : N;
  body : response_body
}.

Record request : Type := {
  req_ip : jsstring;
  req_body : value
}.

(** What one run of the handler is given from outside: the successive
    readings of the clock, the answer of the upstream service (a
    [Throw] is a rejected [fetch]), and [process.env.NODE_ENV]. *)
Record environment : Type := {
  Date_now : nat -> Z;
  fetch : fetch_call -> result upstream_response;
  NODE_ENV : option jsstring
}.

(** What one run of the handler does to the outside. *)
Record world : Type := {
  clock_reads : nat;
  console_log : list metrics;
  console_error : list jsstring;
  fetched : list fetch_call;
  responses : list http_response
}.

Definition initial : world :=
  {| clock_reads := 0; console_log := []; console_error := [];
     fetched := []; responses := [] |}.

(** ** The handler monad: state and exceptions *)

Definition M (A : Type) : Type := world -> result A * world.

Definition ret {A} (a : A) : M A := fun w => (Return a, w).

Definition throw {A} (e : jsstring) : M A := fun w => (Throw e, w).

Definition bind {A B} (m : M A) (k : A -> M B) : M B :=
  fun w =>
    match m w with
    | (Return a, w') => k a w'
    | (Throw e, w') => (Throw e, w')
    end.

Definition lift {A} (r : result A) : M A := fun w => (r, w).

(** [try { m } catch (error) { h error }] *)
Definition try_catch {A} (m : M A) (h : jsstring -> M A) : M A :=
  fun w =>
    match m w with
    | (Return a, w') => (Return a, w')
    | (Throw e, w') => h e w'
    end.

Declare Scope handler_scope.
Delimit Scope handler_scope with handler.
Notation "x <- m ;; k" := (bind m (fun x => k))
  (at level 61, m at next level, right associativity) : handler_scope.
Notation "m ;; k" := (bind m (fun _ => k))
  (at level 61, right associativity) : handler_scope.

(** ** [POST /api/chat] *)

Section ChatEndpoint.

(** [JSON.stringify], the built-in. *)
Variable JSON_stringify : value -> jsstring.

Variable config : CONFIG.
Variable env : environment.

Local Open Scope handler_scope.

(** [Date.now()] and [new Date()] *)
Definition now : M Z :=
  fun w =>
    (Return (Date_now env (clock_reads w)),
     {| clock_reads := S (clock_reads w);
        console_log := console_log w;
        console_error := console_error w;
        fetched := fetched w;
        responses := responses w |}).

Definition log (line : metrics) : M unit :=
  fun w =>
    (Return tt,
     {| clock_reads := clock_reads w;
        console_log := console_log w ++ [line];
        console_error := console_error w;
        fetched := fetched w;
        responses := responses w |}).

Definition log_error (line : jsstring) : M unit :=
  fun w =>
    (Return tt,
     {| clock_reads := clock_reads w;
        console_log := console_log w;
        console_error := console_error w ++ [line];
        fetched := fetched w;
        responses := responses w |}).

(** [await fetch(...)] *)
Definition do_fetch (call : fetch_call) : M upstream_response :=
  fun w =>
    (fetch env call,
     {| clock_reads := clock_reads w;
        console_log := console_log w;
        console_error := console_error w;
        fetched := fetched w ++ [call];
        responses := responses w |}).

(** [res.status(code).json(body)] *)
Definition respond (code : N) (b : response_body) : M unit :=
  fun w =>
    (Return tt,
     {| clock_reads := clock_reads w;
        console_log := console_log w;
        console_error := console_error w;
        fetched := fetched w;
        responses := responses w ++ [{| status := code; body := b |}] |}).

(** [logMetrics] *)
Definition logMetrics (req : request) (elapsed : Z) (ok : bool) : M unit :=
  stamp <- now ;;
  msgs <- lift (get (req_body req) "messages") ;;
  len <- lift (optional_length msgs) ;;
  log {| timestamp := stamp;
         ip := req_ip req;
         success := ok;
         responseTime := JsString.of_Z elapsed ++ js"ms";
         messagesCount := if truthy len then len
                          else VNumber (number_of_nat 0) |}.

(** What V8 puts in the [TypeError] of
    [const { messages, systemPrompt } = req.body] on [null] or
    [undefined]. *)
Definition TypeError_destructure (v : value) : jsstring :=
  js"Cannot destructure property 'messages' of 'req.body' as it is "
  ++ (match v with VNull => js"null" | _ => js"undefined" end)
  ++ js".".

Definition destructure_body (b : value) : result (value * value) :=
  match b with
  | VUndefined | VNull => Throw (TypeError_destructure b)
  | _ =>
      (let? msgs := get b "messages" in
       let? prompt := get b "systemPrompt" in
       Return (msgs, prompt))%result
  end.

(** The callback of [messages.map]. *)
Definition sanitize_message (msg : value) : result Message :=
  (let? r := get msg "role" in
   let? c := get msg "content" in
   Return {| role := r; content := sanitizeInput c |})%result.

Fixpoint map_messages (msgs : list value) : result (list Message) :=
  match msgs with
  | [] => Return []
  | msg :: rest =>
      (let? m := sanitize_message msg in
       let? ms := map_messages rest in
       Return (m :: ms))%result
  end.

(** [messages.map(...)] *)
Definition sanitize_all (msgs : value) : result (list Message) :=
  match msgs with
  | VArray items => map_messages items
  | _ => Throw (js"messages.map is not a function")
  end.

(** [requestBody], after the [if (systemPrompt)]. *)
Definition build_request (sanitized : list Message) (systemPrompt : value)
  : UpstreamRequest :=
  {| model := MODEL config;
     max_tokens := MAX_TOKENS config;
     messages := sanitized;
     system := if truthy systemPrompt
               then Some (sanitizeInput systemPrompt) else None |}.

(** The message of the [Error] thrown on [!response.ok]. *)
Definition api_error (code : N) (errorData : value) : jsstring :=
  js"API Error: " ++ JsString.of_Z (Z.of_N code) ++ js" - "
  ++ JSON_stringify errorData.

(** The [try] block. *)
Definition chat_try (req : request) (startTime : Z) : M unit :=
  fields <- lift (destructure_body (req_body req)) ;;
  let (msgs, systemPrompt) := fields : value * value in
  if negb (truthy msgs) then
    respond 400 (ChatError Msg.MissingMessages None)
  else
    lift (validateMessages msgs) ;;
    sanitizedMessages <- lift (sanitize_all msgs) ;;
    let requestBody := build_request sanitizedMessages systemPrompt in
    response <- do_fetch {| url := ANTHROPIC_API_URL config;
                            x_api_key := ANTHROPIC_API_KEY config;
                            payload := requestBody |} ;;
    if negb (up_ok response) then
      errorData <- lift (up_json response) ;;
      throw (api_error (up_status response) errorData)
    else
      data <- lift (up_json response) ;;
      finish <- now ;;
      logMetrics req (finish - startTime)%Z true ;;
      blocks <- lift (get data "content") ;;
      block <- lift (get0 blocks) ;;
      text <- lift (get block "text") ;;
      usage <- lift (get data "usage") ;;
      used <- lift (get data "model") ;;
      respond 200 (ChatOk text usage used).

(** The [catch] block. *)
Definition chat_catch (req : request) (startTime : Z) (error : jsstring)
  : M unit :=
  log_error error ;;
  finish <- now ;;
  logMetrics req (finish - startTime)%Z false ;;
  if JsString.includes (js"API Error: 401") error then
    respond 500 (ChatError Msg.UpstreamAuth None)
  else if JsString.includes (js"API Error: 429") error then
    respond 429 (ChatError Msg.UpstreamRateLimited None)
  else
    respond 500
      (ChatError Msg.ServerError
         (match NODE_ENV env with
          | Some mode =>
              if JsString.eqb mode (js"development") then Some error
              else None
          | None => None
          end)).

(** The handler of [app.post('/api/chat', ...)]. *)
Definition chat (req : request) : M unit :=
  startTime <- now ;;
  try_catch (chat_try req startTime) (chat_catch req startTime).

(** The world after the handler has run on [req]. *)
Definition run_chat (req : request) : world := snd (chat req initial).

End ChatEndpoint.

(** ** Vocabulary of the properties *)

(** A message the loop of [validateMessages] lets through: [role] is
    ["user"] or ["assistant"] and [content] is truthy. *)
Definition admissible (msg : value) : bool :=
  match get msg "role", get msg "content" with
  | Return r, Return c => truthy r && is_known_role r && truthy c
  | _, _ => false
  end.

Definition user_message (text : jsstring) : value :=
  VObject [(js"role", VString (js"user")); (js"content", VString text)].

(** The messages [validateMessages] can throw with. *)
Inductive validator_error : jsstring -> Prop :=
| err_format : validator_error Msg.InvalidFormat
| err_empty : validator_error Msg.EmptyConversation
| err_many : validator_error Msg.TooManyMessages
| err_malformed : validator_error Msg.MalformedMessage
| err_role : validator_error Msg.InvalidRole
| err_type (v : value) : validator_error (TypeError_read v "role").

(** 3999 letters, a space and one more letter: 4001 code units with
    no white space at either end. *)
Definition long_text : jsstring := repeat 97 3999 ++ [32; 98].

(** A rendering of upstream bodies for the examples, in all of which
    the body is the empty object. *)
Definition stringify_empty_object (_ : value) : jsstring := js"{}".

Definition sample_config : CONFIG :=
  {| ANTHROPIC_API_KEY := js"sk-test";
     ANTHROPIC_API_URL := js"https://api.anthropic.com/v1/messages";
     MODEL := js"claude-sonnet-4-20250514";
     MAX_TOKENS := number_of_nat 1024 |}.

(** An environment whose clock advances 10 ms per reading and whose
    upstream service answers [answer] to every call. *)
Definition sample_env (answer : result upstream_response) : environment :=
  {| Date_now := fun n => Z.of_nat (10 * n);
     fetch := fun _ => answer;
     NODE_ENV := None |}.

Definition post (fields : list (jsstring * value)) : request :=
  {| req_ip := js"203.0.113.7"; req_body := VObject fields |}.

(** The call the handler makes for a sanitized conversation and a
    system prompt. *)
Definition call_for (config : CONFIG) (sanitized : list Message)
    (systemPrompt : value) : fetch_call :=
  {| url := ANTHROPIC_API_URL config;
     x_api_key := ANTHROPIC_API_KEY config;
     payload := build_request config sanitized systemPrompt |}.

(** A well-formed answer of the upstream service. *)
Definition sample_reply : upstream_response :=
  {| up_status := 200;
     up_json :=
       Return (VObject
                 [(js"content", VArray [VObject [(js"text", VString (js"hello"))]]);
                  (js"usage", VObject []);
                  (js"model", VString (js"m"))]) |}.

(** An answer with the given status and the empty object as body. *)
Definition sample_failure (code : N) : upstream_response :=
  {| up_status := code; up_json := Return (VObject []) |}.

(** A 429 whose body is not JSON: [response.json()] rejects. *)
Definition sample_unparsable_429 : upstream_response :=
  {| up_status := 429;
     up_json := Throw (js"Unexpected token < in JSON at position 0") |}.

(** No occurrence of [p] can begin inside [pre], whatever follows:
    at every position of [pre], the rest of [pre] and [p] differ
    before either ends. *)
Fixpoint agree (p s : jsstring) : bool :=
  match p, s with
  | [], _ | _, [] => true
  | a :: p', b :: s' => (a =? b) && agree p' s'
  end.

Fixpoint clear_of (p pre : jsstring) : bool :=
  match pre with
  | [] => true
  | _ :: pre' => negb (agree p pre) && clear_of p pre'
  end.

(** The first words of the message thrown on [!response.ok]. *)
Definition api_error_head (code : N) : jsstring :=
  js"API Error: " ++ JsString.of_Z (Z.of_N code) ++ js" - ".

(** [test] holds of [z], [z + 1], ... ([k] numbers). *)
Fixpoint all_from (test : Z -> bool) (k : nat) (z : Z) : bool :=
  match k with
  | O => true
  | S k' => test z && all_from test k' (Z.succ z)
  end.

(** The content length [express.json()] accepts by default, 100kb: no
    array or string of a parsed body is longer. *)
Definition body_limit : nat := 100 * 1024.

(** [sample_env] in development. *)
Definition sample_development_env (answer : result upstream_response)
  : environment :=
  {| Date_now := fun n => Z.of_nat (10 * n);
     fetch := fun _ => answer;
     NODE_ENV := Some (js"development") |}.

(** [JSON.stringify] on the bodies of the examples: a string with
    nothing to escape is put between quotes, anything else there is the
    empty object. *)
Definition stringify_plain (v : value) : jsstring :=
  match v with
  | VString s => [34] ++ s ++ [34]
  | _ => js"{}"
  end.

(** An answer with the given status and a bare string as body. *)
Definition sample_text_failure (code : N) (text : jsstring)
  : upstream_response :=
  {| up_status := code; up_json := Return (VString text) |}.

Definition ciao : request :=
  post [(js"messages", VArray [user_message (js"ciao")])].

(** * Properties *)

(** ** Trimming and truncation *)

Module JsStringFacts.
Import JsString.

Lemma trimStart_clean (s : t) : starts_with_space (trimStart s) = false.
Proof.
  induction s as [|c s IH]; simpl; [reflexivity|].
  destruct (is_space c) eqn:E; [exact IH|].
  simpl. exact E.
Qed.

Lemma trimStart_fixed (s : t) :
  starts_with_space s = false -> trimStart s = s.
Proof.
  destruct s as [|c s]; simpl; [reflexivity|].
  intros ->. reflexivity.
Qed.

Lemma trimEnd_cons (c : code_unit) (s : t) :
  is_space c = false -> trimEnd (c :: s) = c :: trimEnd s.
Proof.
  intros E. simpl. rewrite E. destruct (trimEnd s); reflexivity.
Qed.

Lemma trimEnd_clean (s : t) : ends_with_space (trimEnd s) = false.
Proof.
  induction s as [|c s IH]; simpl; [reflexivity|].
  destruct (trimEnd s) as [|x r] eqn:R.
  - destruct (is_space c) eqn:E; simpl; [reflexivity | exact E].
  - exact IH.
Qed.

Lemma trimEnd_fixed (s : t) : ends_with_space s = false -> trimEnd s = s.
Proof.
  induction s as [|c s IH]; [reflexivity|].
  destruct s as [|x r].
  - simpl. intros ->. reflexivity.
  - intros E. change (ends_with_space (x :: r) = false) in E.
    specialize (IH E). simpl in IH |- *. rewrite IH. reflexivity.
Qed.

Lemma trimEnd_keeps_start (s : t) :
  starts_with_space s = false -> starts_with_space (trimEnd s) = false.
Proof.
  destruct s as [|c s]; [reflexivity|].
  simpl starts_with_space at 1. intros E.
  rewrite trimEnd_cons by exact E. exact E.
Qed.

Lemma trim_clean_start (s : t) : starts_with_space (trim s) = false.
Proof. apply trimEnd_keeps_start, trimStart_clean. Qed.

Lemma trim_clean_end (s : t) : ends_with_space (trim s) = false.
Proof. apply trimEnd_clean. Qed.

Lemma trim_fixed (s : t) :
  starts_with_space s = false -> ends_with_space s = false -> trim s = s.
Proof.
  intros Hs He. unfold trim. rewrite trimStart_fixed by exact Hs.
  apply trimEnd_fixed, He.
Qed.

Lemma trimStart_length (s : t) : (List.length (trimStart s) <= List.length s)%nat.
Proof.
  induction s as [|c s IH]; simpl; [lia|].
  destruct (is_space c); simpl; lia.
Qed.

Lemma trimEnd_length (s : t) : (List.length (trimEnd s) <= List.length s)%nat.
Proof.
  induction s as [|c s IH]; simpl; [lia|].
  destruct (trimEnd s); [destruct (is_space c)|]; simpl in *; lia.
Qed.

Lemma trim_length (s : t) : (List.length (trim s) <= List.length s)%nat.
Proof.
  unfold trim. pose proof (trimStart_length s).
  pose proof (trimEnd_length (trimStart s)). lia.
Qed.

Lemma slice0_keeps_start (n : nat) (s : t) :
  starts_with_space s = false -> starts_with_space (slice0 n s) = false.
Proof. destruct n, s; simpl; auto. Qed.

Lemma slice0_length (n : nat) (s : t) : (List.length (slice0 n s) <= n)%nat.
Proof. apply firstn_le_length. Qed.

Lemma slice0_short (n : nat) (s : t) :
  (List.length s <= n)%nat -> slice0 n s = s.
Proof. apply firstn_all2. Qed.

End JsStringFacts.

(** ** The Sanitizer *)

Module Sanitizer.
Import JsString JsStringFacts.

Lemma sanitizeInput_string (s : jsstring) :
  sanitizeInput (VString s) = slice0 4000 (trim s).
Proof. reflexivity. Qed.

Lemma sanitizeInput_length (x : value) :
  (List.length (sanitizeInput x) <= 4000)%nat.
Proof.
  destruct x; simpl; try lia. apply slice0_length.
Qed.

Lemma sanitizeInput_clean_start (x : value) :
  starts_with_space (sanitizeInput x) = false.
Proof.
  destruct x; simpl; try reflexivity.
  apply slice0_keeps_start, trim_clean_start.
Qed.

Lemma sanitizeInput_short (s : jsstring) :
  (List.length (trim s) <= 4000)%nat -> sanitizeInput (VString s) = trim s.
Proof. intros H. simpl. apply slice0_short, H. Qed.

Lemma sanitizeInput_fixed (s : jsstring) :
  (List.length s <= 4000)%nat ->
  starts_with_space s = false -> ends_with_space s = false ->
  sanitizeInput (VString s) = s.
Proof.
  intros Hl Hs He. simpl. rewrite trim_fixed by assumption.
  apply slice0_short, Hl.
Qed.

(** C3, as the spec states it, fails: the cut at 4000 can expose a
    white space that was inside the text. *)
Lemma sanitizeInput_long_text_ends_with_space :
  List.length long_text = 4001%nat
  /\ JsString.trim long_text = long_text
  /\ ends_with_space (sanitizeInput (VString long_text)) = true.
Proof. repeat split; vm_compute; reflexivity. Qed.

(** The last code unit of a cut after [S n] units is unit [n] of the
    text, when the text has one. *)
Lemma ends_with_space_slice0 (n : nat) (s : jsstring) :
  ends_with_space (slice0 (S n) s)
  = match nth_error s n with
    | Some c => is_space c
    | None => ends_with_space s
    end.
Proof.
  unfold slice0. revert s. induction n as [|n IH]; intros s.
  - destruct s as [|c s]; reflexivity.
  - destruct s as [|c s]; [reflexivity|].
    change (firstn (S (S n)) (c :: s)) with (c :: firstn (S n) s).
    change (nth_error (c :: s) (S n)) with (nth_error s n).
    destruct s as [|d s].
    + destruct n; reflexivity.
    + change (firstn (S n) (d :: s)) with (d :: firstn n s).
      change (ends_with_space (c :: d :: firstn n s))
        with (ends_with_space (d :: firstn n s)).
      change (d :: firstn n s) with (firstn (S n) (d :: s)).
      rewrite IH. destruct (nth_error (d :: s) n); reflexivity.
Qed.

(** When the Sanitizer's output ends in white space: exactly when unit
    3999 of the trimmed text is white space. *)
Lemma sanitizeInput_ends_with_space (s : jsstring) :
  ends_with_space (sanitizeInput (VString s))
  = match nth_error (trim s) 3999 with
    | Some c => is_space c
    | None => false
    end.
Proof.
  rewrite sanitizeInput_string.
  change 4000%nat with (S 3999). rewrite ends_with_space_slice0.
  destruct (nth_error (trim s) 3999); [reflexivity|].
  apply trim_clean_end.
Qed.

(** C3 (amended): for every string [s], the Sanitizer's output has at
    most 4000 code units and no leading white space.  It ends in white
    space exactly when the code unit at index 3999 of the trimmed [s]
    is white space, the cut at 4000 then falling right after it; in
    every other case, and so whenever the trimmed [s] has at most 4000
    code units, it has no trailing white space. *)
Theorem sanitizeInput_bounded_and_trimmed (s : jsstring) :
  (List.length (sanitizeInput (VString s)) <= 4000)%nat
  /\ starts_with_space (sanitizeInput (VString s)) = false
  /\ (ends_with_space (sanitizeInput (VString s)) = true
      <-> exists c, nth_error (trim s) 3999 = Some c /\ is_space c = true)
  /\ ((List.length (trim s) <= 4000)%nat ->
      ends_with_space (sanitizeInput (VString s)) = false).
Proof.
  split; [apply sanitizeInput_length|].
  split; [apply sanitizeInput_clean_start|].
  split.
  - rewrite sanitizeInput_ends_with_space.
    destruct (nth_error (trim s) 3999) as [c|].
    + split; [intros H; exists c; auto|].
      intros (c' & E & H). inversion E; subst c'. exact H.
    + split; [discriminate|]. intros (c' & E & _). discriminate E.
  - intros H. rewrite sanitizeInput_short by exact H.
    apply trim_clean_end.
Qed.

Lemma sanitizeInput_bounded_and_trimmed_witness :
  (List.length (trim (js"  ciao ")) <= 4000)%nat
  /\ sanitizeInput (VString (js"  ciao ")) = js"ciao"
  /\ ends_with_space (sanitizeInput (VString (js"  ciao "))) = false
  /\ ends_with_space (sanitizeInput (VString long_text)) = true
  /\ ends_with_space (sanitizeInput (VString (repeat 97 5000))) = false.
Proof.
  split; [vm_compute; lia|].
  split; [reflexivity|].
  split.
  - apply (proj2 (proj2 (proj2 (sanitizeInput_bounded_and_trimmed
                                  (js"  ciao "))))).
    vm_compute; lia.
  - split.
    + apply (proj1 (proj2 (proj2 (sanitizeInput_bounded_and_trimmed
                                    long_text)))).
      exists 32. split; vm_compute; reflexivity.
    + destruct (ends_with_space (sanitizeInput (VString (repeat 97 5000))))
        eqn:E; [|reflexivity].
      apply (proj1 (proj2 (proj2 (sanitizeInput_bounded_and_trimmed
                                    (repeat 97 5000))))) in E.
      destruct E as (c & Hc & Hs). vm_compute in Hc.
      inversion Hc; subst c. vm_compute in Hs. discriminate Hs.
Defined.

(** C4, as the spec states it, fails: sanitizing [long_text] leaves a
    trailing space, which a second pass removes. *)
Lemma sanitizeInput_long_text_not_idempotent :
  List.length (sanitizeInput (VString long_text)) = 4000%nat
  /\ List.length (sanitizeInput (VString (sanitizeInput (VString long_text))))
     = 3999%nat.
Proof. split; vm_compute; reflexivity. Qed.

(** C4 (amended): a second pass of the Sanitizer leaves its output
    unchanged exactly when that output does not end in white space;
    this is so for every input that is not a string and for every
    string whose trimmed form has at most 4000 code units. *)
Theorem sanitizeInput_idempotent_iff (x : value) :
  (sanitizeInput (VString (sanitizeInput x)) = sanitizeInput x
   <-> ends_with_space (sanitizeInput x) = false)
  /\ ((forall s, x = VString s -> (List.length (trim s) <= 4000)%nat) ->
      sanitizeInput (VString (sanitizeInput x)) = sanitizeInput x).
Proof.
  assert (Hiff : sanitizeInput (VString (sanitizeInput x)) = sanitizeInput x
                 <-> ends_with_space (sanitizeInput x) = false).
  { split.
    - intros H.
      pose proof (trim_length (sanitizeInput x)) as Ht.
      pose proof (sanitizeInput_length x) as Hl.
      rewrite sanitizeInput_short in H by lia.
      rewrite <- H. apply trim_clean_end.
    - intros H. apply sanitizeInput_fixed.
      + apply sanitizeInput_length.
      + apply sanitizeInput_clean_start.
      + exact H. }
  split; [exact Hiff|].
  intros H. apply Hiff.
  destruct x; try reflexivity.
  rewrite sanitizeInput_short by (apply H; reflexivity).
  apply trim_clean_end.
Qed.

Lemma sanitizeInput_idempotent_iff_witness :
  (forall s, VString (js" a b ") = VString s ->
             (List.length (trim s) <= 4000)%nat)
  /\ sanitizeInput (VString (sanitizeInput (VString (js" a b "))))
     = sanitizeInput (VString (js" a b ")).
Proof.
  assert (H : forall s, VString (js" a b ") = VString s ->
                        (List.length (trim s) <= 4000)%nat).
  { intros s E. injection E as <-. vm_compute. lia. }
  split; [exact H|].
  apply (proj2 (sanitizeInput_idempotent_iff (VString (js" a b "))) H).
Defined.

End Sanitizer.

(** ** The Conversation Validator *)

Module Validator.

Lemma get_nullish (v : value) (key : string) (e : jsstring) :
  get v key = Throw e -> e = TypeError_read v key.
Proof. destruct v; simpl; intros H; inversion H; reflexivity. Qed.

Lemma get_total (v : value) (key key' : string) (r : value) :
  get v key = Return r -> exists r', get v key' = Return r'.
Proof. destruct v; simpl; intros H; try discriminate H; eauto. Qed.

Lemma check_message_ok (msg : value) :
  check_message msg = Return tt <-> admissible msg = true.
Proof.
  unfold check_message, admissible, rbind.
  destruct (get msg "role") as [r|e]; [|split; discriminate].
  destruct (truthy r) eqn:Tr; simpl.
  - destruct (get msg "content") as [c|e]; [|split; discriminate].
    destruct (truthy c); simpl; [|rewrite andb_false_r; split; discriminate].
    destruct (is_known_role r); simpl; split; (reflexivity || discriminate).
  - destruct (get msg "content"); split; discriminate.
Qed.

Lemma check_message_error (msg : value) (e : jsstring) :
  check_message msg = Throw e ->
  e = Msg.MalformedMessage \/ e = Msg.InvalidRole
  \/ e = TypeError_read msg "role".
Proof.
  unfold check_message, rbind.
  destruct (get msg "role") as [r|e'] eqn:G.
  - destruct (truthy r); simpl.
    + destruct (get msg "content") as [c|e''] eqn:G'.
      * destruct (truthy c); simpl.
        -- destruct (is_known_role r); simpl; intros H; inversion H. auto.
        -- intros H; inversion H. auto.
      * destruct (get_total msg "role" "content" r G) as [c G'']. congruence.
    + intros H; inversion H. auto.
  - intros H; inversion H; subst. right; right.
    apply get_nullish, G.
Qed.

Lemma check_messages_ok (items : list value) :
  check_messages items = Return tt <-> forallb admissible items = true.
Proof.
  induction items as [|msg rest IH]; simpl; [tauto|].
  rewrite andb_true_iff, <- IH, <- check_message_ok.
  unfold rbind. destruct (check_message msg) as [[]|e].
  - tauto.
  - split; [discriminate | intros [H _]; discriminate H].
Qed.

Lemma check_messages_error (items : list value) (e : jsstring) :
  check_messages items = Throw e ->
  e = Msg.MalformedMessage \/ e = Msg.InvalidRole
  \/ exists msg, In msg items /\ e = TypeError_read msg "role".
Proof.
  induction items as [|msg rest IH]; simpl; [discriminate|].
  unfold rbind. destruct (check_message msg) as [[]|e'] eqn:C.
  - intros H. destruct (IH H) as [?|[?|(m & ? & ?)]]; eauto 6.
  - intros H; inversion H; subst.
    destruct (check_message_error _ _ C) as [?|[?|?]]; eauto 6.
Qed.

(** When [validateMessages] returns, and with what. *)
Lemma validateMessages_ok (v : value) (b : bool) :
  validateMessages v = Return b <->
  b = true /\ exists items,
    v = VArray items /\ (1 <= List.length items <= 50)%nat
    /\ forallb admissible items = true.
Proof.
  split.
  - destruct v; simpl; try discriminate.
    destruct (Nat.eqb_spec (List.length items) 0) as [E0|E0];
      [discriminate|].
    destruct (Nat.ltb_spec 50 (List.length items)) as [E50|E50];
      [discriminate|].
    unfold rbind. destruct (check_messages items) as [[]|e] eqn:C;
      [|discriminate].
    intros Hb; inversion Hb. split; [reflexivity|].
    exists items. repeat split; try lia. apply check_messages_ok, C.
  - intros (-> & items & -> & Hlen & Hall). simpl.
    destruct (Nat.eqb_spec (List.length items) 0) as [E0|E0]; [lia|].
    destruct (Nat.ltb_spec 50 (List.length items)) as [E50|E50]; [lia|].
    apply check_messages_ok in Hall. rewrite Hall. reflexivity.
Qed.

Lemma validateMessages_error (v : value) (e : jsstring) :
  validateMessages v = Throw e -> validator_error e.
Proof.
  destruct v; simpl; intros H; try (inversion H; constructor).
  destruct (List.length items =? 0)%nat; [inversion H; constructor|].
  destruct (50 <? List.length items)%nat; [inversion H; constructor|].
  unfold rbind in H.
  destruct (check_messages items) as [[]|e'] eqn:C; [discriminate|].
  inversion H; subst.
  destruct (check_messages_error _ _ C) as [->|[->|(m & _ & ->)]];
    constructor.
Qed.

(** C9: [TooManyMessages] is thrown exactly for an array of more than
    50 entries.  A conversation of exactly 50 messages, each with a
    truthy [role] among ["user"] and ["assistant"] and a truthy
    [content], is accepted; one of 51 or more is rejected with
    [TooManyMessages]; and nothing else is rejected with it. *)
Theorem validateMessages_limit_is_50 :
  (forall items,
      List.length items = 50%nat -> forallb admissible items = true ->
      validateMessages (VArray items) = Return true)
  /\ (forall items,
        (50 < List.length items)%nat ->
        validateMessages (VArray items) = Throw Msg.TooManyMessages)
  /\ (forall v,
        validateMessages v = Throw Msg.TooManyMessages ->
        exists items, v = VArray items /\ (50 < List.length items)%nat).
Proof.
  split; [|split].
  - intros items Hlen Hall. apply validateMessages_ok.
    split; [reflexivity|]. exists items. repeat split; try lia. exact Hall.
  - intros items Hlen. simpl.
    destruct (Nat.eqb_spec (List.length items) 0) as [E0|E0]; [lia|].
    destruct (Nat.ltb_spec 50 (List.length items)) as [E50|E50]; [|lia].
    reflexivity.
  - intros v H. destruct v; simpl in H;
      try (exfalso; inversion H as [E]; vm_compute in E; discriminate E).
    exists items. split; [reflexivity|].
    destruct (Nat.eqb_spec (List.length items) 0) as [E0|E0];
      [exfalso; inversion H as [E]; vm_compute in E; discriminate E|].
    destruct (Nat.ltb_spec 50 (List.length items)) as [E50|E50];
      [exact E50|].
    exfalso. unfold rbind in H.
    destruct (check_messages items) as [[]|e] eqn:C; [discriminate H|].
    inversion H; subst.
    destruct (check_messages_error _ _ C) as [E|[E|(m & _ & E)]];
      vm_compute in E; discriminate E.
Qed.

Lemma validateMessages_limit_is_50_witness :
  validateMessages (VArray (repeat (user_message (js"ciao")) 50))
  = Return true
  /\ validateMessages (VArray (repeat (user_message (js"ciao")) 51))
     = Throw Msg.TooManyMessages.
Proof.
  split.
  - apply (proj1 validateMessages_limit_is_50); reflexivity.
  - apply (proj1 (proj2 validateMessages_limit_is_50)). vm_compute. lia.
Defined.

(** C5, as the spec states it, fails: a message whose [content] is the
    empty string is rejected. *)
Lemma validateMessages_rejects_empty_content :
  get (user_message []) "content" = Return (VString [])
  /\ validateMessages (VArray [user_message []])
     = Throw Msg.MalformedMessage.
Proof. split; reflexivity. Qed.

(** C5 (amended): [content] has to be present and truthy.  A message
    whose [content] is the empty string, or any other falsy value, is
    not admissible: no conversation that contains it is accepted, and
    with a truthy [role] the message itself is refused as
    [MalformedMessage]. *)
Theorem validateMessages_needs_truthy_content (msg c : value) :
  get msg "content" = Return c -> truthy c = false ->
  (forall items, In msg items -> validateMessages (VArray items) <> Return true)
  /\ (forall r, get msg "role" = Return r -> truthy r = true ->
                check_message msg = Throw Msg.MalformedMessage).
Proof.
  intros Hc Hfalsy. split.
  - intros items Hin Hok.
    apply validateMessages_ok in Hok.
    destruct Hok as (_ & items' & E & _ & Hall). inversion E; subst items'.
    rewrite forallb_forall in Hall. specialize (Hall msg Hin).
    unfold admissible in Hall. rewrite Hc in Hall.
    destruct (get msg "role"); [|discriminate Hall].
    rewrite Hfalsy, andb_false_r in Hall. discriminate Hall.
  - intros r Hr Hrole. unfold check_message, rbind.
    rewrite Hr, Hrole. simpl. rewrite Hc, Hfalsy. reflexivity.
Qed.

Lemma validateMessages_needs_truthy_content_witness :
  get (user_message []) "content" = Return (VString [])
  /\ truthy (VString []) = false
  /\ validateMessages (VArray [user_message (js"ciao"); user_message []])
     <> Return true
  /\ check_message (user_message []) = Throw Msg.MalformedMessage.
Proof.
  split; [reflexivity|]. split; [reflexivity|].
  destruct (validateMessages_needs_truthy_content
              (user_message []) (VString []) eq_refl eq_refl) as [H1 H2].
  split.
  - apply H1. right. left. reflexivity.
  - apply (H2 (VString (js"user"))); reflexivity.
Defined.

End Validator.

(** ** The handler *)

Section ChatFacts.

Variable JSON_stringify : value -> jsstring.
Variable config : CONFIG.
Variable env : environment.

Local Open Scope handler_scope.


(** *** Running the monad *)

Lemma bind_run {A B} (m : M A) (k : A -> M B) (w : world) :
  bind m k w = match m w with
               | (Return a, w') => k a w'
               | (Throw e, w') => (Throw e, w')
               end.
Proof. reflexivity. Qed.

Lemma lift_run {A} (r : result A) (w : world) : lift r w = (r, w).
Proof. reflexivity. Qed.

(** *** What leaves the list of upstream calls alone *)

Definition keeps_fetched {A} (m : M A) : Prop :=
  forall w, fetched (snd (m w)) = fetched w.

Lemma keeps_ret {A} (a : A) : keeps_fetched (ret a).
Proof. intros w. reflexivity. Qed.

Lemma keeps_throw {A} (e : jsstring) : keeps_fetched (@throw A e).
Proof. intros w. reflexivity. Qed.

Lemma keeps_lift {A} (r : result A) : keeps_fetched (lift r).
Proof. intros w. reflexivity. Qed.

Lemma keeps_now : keeps_fetched (now env).
Proof. intros w. reflexivity. Qed.

Lemma keeps_log (line : metrics) : keeps_fetched (log line).
Proof. intros w. reflexivity. Qed.

Lemma keeps_log_error (line : jsstring) : keeps_fetched (log_error line).
Proof. intros w. reflexivity. Qed.

Lemma keeps_respond (code : N) (b : response_body) :
  keeps_fetched (respond code b).
Proof. intros w. reflexivity. Qed.

Lemma keeps_bind {A B} (m : M A) (k : A -> M B) :
  keeps_fetched m -> (forall a, keeps_fetched (k a)) ->
  keeps_fetched (bind m k).
Proof.
  intros Hm Hk w. rewrite bind_run. specialize (Hm w).
  destruct (m w) as [[a|e] w']; simpl in *.
  - rewrite Hk. exact Hm.
  - exact Hm.
Qed.

Lemma keeps_try_catch {A} (m : M A) (h : jsstring -> M A) :
  keeps_fetched m -> (forall e, keeps_fetched (h e)) ->
  keeps_fetched (try_catch m h).
Proof.
  intros Hm Hh w. unfold try_catch. specialize (Hm w).
  destruct (m w) as [[a|e] w']; simpl in *.
  - exact Hm.
  - rewrite Hh. exact Hm.
Qed.

Ltac frame :=
  repeat first
    [ apply keeps_ret | apply keeps_throw | apply keeps_lift
    | apply keeps_now | apply keeps_log | apply keeps_log_error
    | apply keeps_respond
    | apply keeps_bind; [|intro; cbv beta]
    | match goal with
      | |- keeps_fetched (if ?b then _ else _) => destruct b
      end ].

Lemma keeps_logMetrics (req : request) (elapsed : Z) (ok : bool) :
  keeps_fetched (logMetrics env req elapsed ok).
Proof. unfold logMetrics. frame. Qed.

Lemma keeps_chat_catch (req : request) (startTime : Z) (error : jsstring) :
  keeps_fetched (chat_catch env req startTime error).
Proof.
  unfold chat_catch. frame; try apply keeps_logMetrics.
Qed.

(** *** Error messages and the classification of the [catch] block *)

Lemma api_error_429_has_429 (v : value) :
  JsString.includes (js"API Error: 429") (api_error JSON_stringify 429 v)
  = true.
Proof. reflexivity. Qed.

Lemma api_error_429_has_401 (v : value) :
  JsString.includes (js"API Error: 401") (api_error JSON_stringify 429 v)
  = JsString.includes (js"API Error: 401") (JSON_stringify v).
Proof. reflexivity. Qed.

Lemma validator_error_unclassified (e : jsstring) :
  validator_error e ->
  JsString.includes (js"API Error: 401") e = false
  /\ JsString.includes (js"API Error: 429") e = false.
Proof.
  intros H. destruct H; try (split; vm_compute; reflexivity).
  destruct v; split; vm_compute; reflexivity.
Qed.

(** *** The pieces of the handler *)

Lemma destructure_body_fields (b msgs sp : value) :
  destructure_body b = Return (msgs, sp) ->
  get b "messages" = Return msgs /\ get b "systemPrompt" = Return sp.
Proof.
  destruct b; simpl; intros H; inversion H; split; reflexivity.
Qed.

Lemma destructure_body_of_messages (b msgs : value) :
  get b "messages" = Return msgs ->
  exists sp, destructure_body b = Return (msgs, sp).
Proof.
  destruct b; simpl; intros H; inversion H; eauto.
Qed.

Lemma optional_length_total (v : value) :
  exists len, optional_length v = Return len.
Proof. destruct v; simpl; eauto. Qed.

Lemma logMetrics_run (req : request) (elapsed : Z) (ok : bool)
    (msgs : value) (w : world) :
  get (req_body req) "messages" = Return msgs ->
  exists line,
    success line = ok
    /\ logMetrics env req elapsed ok w
       = (Return tt,
          {| clock_reads := S (clock_reads w);
             console_log := console_log w ++ [line];
             console_error := console_error w;
             fetched := fetched w;
             responses := responses w |}).
Proof.
  intros G. destruct (optional_length_total msgs) as [len L].
  unfold logMetrics. rewrite bind_run. simpl.
  rewrite bind_run, lift_run, G, bind_run, lift_run, L.
  eexists. split; [|reflexivity]. reflexivity.
Qed.

Lemma chat_catch_run (req : request) (startTime : Z) (error : jsstring)
    (msgs : value) (w : world) :
  get (req_body req) "messages" = Return msgs ->
  exists line,
    success line = false
    /\ chat_catch env req startTime error w
       = respond
           (if JsString.includes (js"API Error: 401") error then 500
            else if JsString.includes (js"API Error: 429") error then 429
            else 500)
           (if JsString.includes (js"API Error: 401") error
            then ChatError Msg.UpstreamAuth None
            else if JsString.includes (js"API Error: 429") error
            then ChatError Msg.UpstreamRateLimited None
            else ChatError Msg.ServerError
                   (match NODE_ENV env with
                    | Some mode =>
                        if JsString.eqb mode (js"development")
                        then Some error else None
                    | None => None
                    end))
           {| clock_reads := S (S (clock_reads w));
              console_log := console_log w ++ [line];
              console_error := console_error w ++ [error];
              fetched := fetched w;
              responses := responses w |}.
Proof.
  intros G. unfold chat_catch.
  rewrite bind_run. simpl. rewrite bind_run. simpl. rewrite bind_run.
  destruct (logMetrics_run req
              (Date_now env (clock_reads w) - startTime)%Z false msgs
              {| clock_reads := S (clock_reads w);
                 console_log := console_log w;
                 console_error := console_error w ++ [error];
                 fetched := fetched w;
                 responses := responses w |} G) as (line & Hs & ->).
  exists line. split; [exact Hs|]. simpl.
  destruct (JsString.includes (js"API Error: 401") error); [reflexivity|].
  destruct (JsString.includes (js"API Error: 429") error); reflexivity.
Qed.

Lemma map_messages_admissible (items : list value) :
  forallb admissible items = true ->
  exists sanitized, map_messages items = Return sanitized.
Proof.
  induction items as [|msg rest IH]; simpl; [eauto|].
  rewrite andb_true_iff. intros [Hm Hrest].
  destruct (IH Hrest) as [l ->].
  unfold admissible in Hm. unfold sanitize_message.
  destruct (get msg "role") as [r|]; [|discriminate Hm].
  destruct (get msg "content") as [c|]; [|discriminate Hm].
  simpl. eauto.
Qed.

Lemma sanitize_all_validated (msgs : value) :
  validateMessages msgs = Return true ->
  exists sanitized, sanitize_all msgs = Return sanitized.
Proof.
  intros V. apply Validator.validateMessages_ok in V.
  destruct V as (_ & items & -> & _ & Hall).
  apply map_messages_admissible, Hall.
Qed.

(** The [try] block up to the upstream call. *)
Lemma chat_try_missing (req : request) (startTime : Z) (msgs sp : value)
    (w : world) :
  destructure_body (req_body req) = Return (msgs, sp) ->
  truthy msgs = false ->
  chat_try JSON_stringify config env req startTime w
  = respond 400 (ChatError Msg.MissingMessages None) w.
Proof.
  intros D T. unfold chat_try. rewrite bind_run, lift_run, D, T. reflexivity.
Qed.

Lemma chat_try_invalid (req : request) (startTime : Z) (msgs sp : value)
    (e : jsstring) (w : world) :
  destructure_body (req_body req) = Return (msgs, sp) ->
  truthy msgs = true ->
  validateMessages msgs = Throw e ->
  chat_try JSON_stringify config env req startTime w = (Throw e, w).
Proof.
  intros D T V. unfold chat_try. rewrite bind_run, lift_run, D, T. simpl.
  rewrite bind_run, lift_run, V. reflexivity.
Qed.

Lemma chat_try_upstream_error (req : request) (startTime : Z)
    (msgs sp : value) (sanitized : list Message) (r : upstream_response)
    (errorData : value) (w : world) :
  destructure_body (req_body req) = Return (msgs, sp) ->
  truthy msgs = true ->
  validateMessages msgs = Return true ->
  sanitize_all msgs = Return sanitized ->
  fetch env (call_for config sanitized sp) = Return r ->
  up_ok r = false ->
  up_json r = Return errorData ->
  chat_try JSON_stringify config env req startTime w
  = (Throw (api_error JSON_stringify (up_status r) errorData),
     {| clock_reads := clock_reads w;
        console_log := console_log w;
        console_error := console_error w;
        fetched := fetched w ++ [call_for config sanitized sp];
        responses := responses w |}).
Proof.
  intros D T V S F O J. unfold chat_try.
  rewrite bind_run, lift_run, D, T. simpl.
  rewrite bind_run, lift_run, V, bind_run, lift_run, S, bind_run.
  unfold do_fetch. fold (call_for config sanitized sp). rewrite F, O. simpl.
  rewrite bind_run, lift_run, J. reflexivity.
Qed.

Lemma chat_try_fetched (req : request) (startTime : Z) (w : world) :
  fetched (snd (chat_try JSON_stringify config env req startTime w))
  = fetched w
  \/ exists msgs sp sanitized,
      destructure_body (req_body req) = Return (msgs, sp)
      /\ truthy msgs = true
      /\ validateMessages msgs = Return true
      /\ sanitize_all msgs = Return sanitized
      /\ fetched (snd (chat_try JSON_stringify config env req startTime w))
         = fetched w ++ [call_for config sanitized sp].
Proof.
  unfold chat_try. rewrite bind_run, lift_run.
  destruct (destructure_body (req_body req)) as [[msgs sp]|e] eqn:D;
    [|left; reflexivity].
  destruct (truthy msgs) eqn:T; simpl; [|left; reflexivity].
  rewrite bind_run, lift_run.
  destruct (validateMessages msgs) as [b|e] eqn:V; [|left; reflexivity].
  assert (b = true) as -> by (apply Validator.validateMessages_ok in V; tauto).
  rewrite bind_run, lift_run.
  destruct (sanitize_all msgs) as [sanitized|e] eqn:S; [|left; reflexivity].
  right. exists msgs, sp, sanitized.
  split; [reflexivity|]. split; [exact T|]. split; [exact V|].
  split; [exact S|].
  rewrite bind_run. unfold do_fetch. fold (call_for config sanitized sp).
  destruct (fetch env (call_for config sanitized sp)) as [r|e];
    [|reflexivity].
  match goal with
  | |- fetched (snd (?m ?w')) = _ =>
      assert (K : keeps_fetched m) by (frame; apply keeps_logMetrics);
      rewrite (K w')
  end.
  reflexivity.
Qed.

(** Every call the handler makes is the one built from the validated
    conversation and the prompt of the body. *)
Lemma run_chat_fetched (req : request) (call : fetch_call) :
  In call (fetched (run_chat JSON_stringify config env req)) ->
  exists msgs sp sanitized,
    destructure_body (req_body req) = Return (msgs, sp)
    /\ truthy msgs = true
    /\ validateMessages msgs = Return true
    /\ sanitize_all msgs = Return sanitized
    /\ call = call_for config sanitized sp.
Proof.
  unfold run_chat, chat. rewrite bind_run. simpl. unfold try_catch.
  match goal with
  | |- context [chat_try _ _ _ req ?t ?w] =>
      pose proof (chat_try_fetched req t w) as H;
      destruct (chat_try JSON_stringify config env req t w) as [[[]|e] w']
  end; simpl in H |- *.
  - destruct H as [->|(msgs & sp & l & D & T & V & S & ->)]; simpl.
    + intros [].
    + intros [<-|[]]. eauto 10.
  - rewrite keeps_chat_catch.
    destruct H as [->|(msgs & sp & l & D & T & V & S & ->)]; simpl.
    + intros [].
    + intros [<-|[]]. eauto 10.
Qed.

(** A body without a truthy [messages]: the early [return]. *)
Lemma run_chat_missing (req : request) (msgs : value) :
  get (req_body req) "messages" = Return msgs ->
  truthy msgs = false ->
  run_chat JSON_stringify config env req
  = {| clock_reads := 1;
       console_log := [];
       console_error := [];
       fetched := [];
       responses := [{| status := 400;
                        body := ChatError Msg.MissingMessages None |}] |}.
Proof.
  intros G T. destruct (destructure_body_of_messages _ _ G) as [sp D].
  unfold run_chat, chat. rewrite bind_run. simpl. unfold try_catch.
  rewrite (chat_try_missing req _ msgs sp _ D T). reflexivity.
Qed.

(** A conversation the validator refuses: the generic answer of the
    [catch] block. *)
Lemma run_chat_invalid (req : request) (msgs : value) (e : jsstring) :
  get (req_body req) "messages" = Return msgs ->
  truthy msgs = true ->
  validateMessages msgs = Throw e ->
  exists details,
    responses (run_chat JSON_stringify config env req)
    = [{| status := 500; body := ChatError Msg.ServerError details |}]
    /\ console_error (run_chat JSON_stringify config env req) = [e]
    /\ fetched (run_chat JSON_stringify config env req) = [].
Proof.
  intros G T V. destruct (destructure_body_of_messages _ _ G) as [sp D].
  destruct (validator_error_unclassified e
              (Validator.validateMessages_error _ _ V)) as [E401 E429].
  unfold run_chat, chat. rewrite bind_run. simpl. unfold try_catch.
  rewrite (chat_try_invalid req _ msgs sp e _ D T V).
  match goal with
  | |- context [chat_catch env req ?t e ?w] =>
      destruct (chat_catch_run req t e msgs w G) as (line & _ & ->)
  end.
  rewrite E401, E429. simpl. eexists. repeat split; reflexivity.
Qed.

(** *** The claims about the endpoint *)

(** C1 (the code departs from it): a conversation that fails
    validation is not answered with 400.  For the empty conversation
    [[]] the validator throws [EmptyConversation], the [catch] block
    finds neither of the two upstream markers in the message, and the
    answer is 500 with the generic server error. *)
Theorem empty_conversation_answered_500 (client : jsstring) :
  validateMessages (VArray []) = Throw Msg.EmptyConversation
  /\ exists details,
      responses (run_chat JSON_stringify config env
                   {| req_ip := client;
                      req_body := VObject [(js"messages", VArray [])] |})
      = [{| status := 500; body := ChatError Msg.ServerError details |}].
Proof.
  split; [reflexivity|].
  destruct (run_chat_invalid
              {| req_ip := client;
                 req_body := VObject [(js"messages", VArray [])] |}
              (VArray []) Msg.EmptyConversation
              eq_refl eq_refl eq_refl) as (details & H & _).
  exists details. exact H.
Qed.

(** C2 (the code departs from it): a request without [messages] leaves
    through the early [return] of the guard, which answers 400 and
    never calls [logMetrics]: no metrics record is emitted. *)
Theorem missing_messages_not_logged (client : jsstring) :
  console_log (run_chat JSON_stringify config env
                 {| req_ip := client; req_body := VObject [] |}) = []
  /\ responses (run_chat JSON_stringify config env
                  {| req_ip := client; req_body := VObject [] |})
     = [{| status := 400; body := ChatError Msg.MissingMessages None |}].
Proof.
  rewrite (run_chat_missing {| req_ip := client; req_body := VObject [] |}
             VUndefined eq_refl eq_refl).
  split; reflexivity.
Qed.

(** An upstream 429 whose body parses as JSON, the serialized body not
    containing the text [API Error: 401]: the request is answered with
    status 429 and the retry-later message. *)
Theorem upstream_429_is_relayed (req : request) (msgs : value)
    (r : upstream_response) (errorData : value) :
  get (req_body req) "messages" = Return msgs ->
  truthy msgs = true ->
  validateMessages msgs = Return true ->
  (forall call, fetch env call = Return r) ->
  up_status r = 429 ->
  up_json r = Return errorData ->
  JsString.includes (js"API Error: 401") (JSON_stringify errorData) = false ->
  responses (run_chat JSON_stringify config env req)
  = [{| status := 429; body := ChatError Msg.UpstreamRateLimited None |}].
Proof.
  intros G T V F Hs J H401.
  destruct (destructure_body_of_messages _ _ G) as [sp D].
  destruct (sanitize_all_validated _ V) as [sanitized S].
  assert (O : up_ok r = false) by (unfold up_ok; rewrite Hs; reflexivity).
  unfold run_chat, chat. rewrite bind_run. simpl. unfold try_catch.
  rewrite (chat_try_upstream_error req _ msgs sp sanitized r errorData _
             D T V S (F _) O J).
  match goal with
  | |- context [chat_catch env req ?t ?e ?w] =>
      destruct (chat_catch_run req t e msgs w G) as (line & _ & ->)
  end.
  rewrite Hs, api_error_429_has_401, H401, api_error_429_has_429.
  reflexivity.
Qed.

(** C7 (amended): the request sent upstream carries a [system] field
    if and only if the [systemPrompt] of the body is truthy; the field
    is then the sanitized [systemPrompt].  For a [systemPrompt] that is
    omitted or falsy (the empty string, [null], [0], [false]) the field
    is absent. *)
Theorem system_field_iff_truthy_prompt (req : request) (call : fetch_call) :
  In call (fetched (run_chat JSON_stringify config env req)) ->
  exists systemPrompt,
    get (req_body req) "systemPrompt" = Return systemPrompt
    /\ system (payload call)
       = (if truthy systemPrompt then Some (sanitizeInput systemPrompt)
          else None).
Proof.
  intros H.
  destruct (run_chat_fetched req call H) as (msgs & sp & l & D & _ & _ & _ & ->).
  exists sp. split; [|reflexivity].
  apply (destructure_body_fields _ _ _ D).
Qed.

(** C10: a body whose [messages] is falsy ([undefined], [null], [0],
    the empty string, [false]) is answered 400 with the
    missing-parameter error and nothing else happens: no error is
    caught or logged, no upstream call is made.  The validator, which
    would have thrown [InvalidFormat] on such a value, is not
    consulted. *)
Theorem falsy_messages_reported_missing (req : request) (msgs : value) :
  get (req_body req) "messages" = Return msgs ->
  truthy msgs = false ->
  run_chat JSON_stringify config env req
  = {| clock_reads := 1;
       console_log := [];
       console_error := [];
       fetched := [];
       responses := [{| status := 400;
                        body := ChatError Msg.MissingMessages None |}] |}
  /\ validateMessages msgs = Throw Msg.InvalidFormat.
Proof.
  intros G T. split; [apply (run_chat_missing req msgs G T)|].
  destruct msgs; try reflexivity. discriminate T.
Qed.

End ChatFacts.

(** C8: the [model] and [max_tokens] of every request sent upstream are
    those of [CONFIG].  For any two requests, whatever their bodies,
    their clients and the environments they run in, the two fields are
    the same. *)
Theorem model_and_max_tokens_from_config
    (stringify1 stringify2 : value -> jsstring) (config : CONFIG)
    (env1 env2 : environment) (req1 req2 : request)
    (call1 call2 : fetch_call) :
  In call1 (fetched (run_chat stringify1 config env1 req1)) ->
  In call2 (fetched (run_chat stringify2 config env2 req2)) ->
  (model (payload call1) = MODEL config
   /\ max_tokens (payload call1) = MAX_TOKENS config)
  /\ (model (payload call2) = model (payload call1)
      /\ max_tokens (payload call2) = max_tokens (payload call1)).
Proof.
  intros H1 H2.
  destruct (run_chat_fetched _ _ _ _ _ H1) as (? & ? & ? & _ & _ & _ & _ & ->).
  destruct (run_chat_fetched _ _ _ _ _ H2) as (? & ? & ? & _ & _ & _ & _ & ->).
  repeat split; reflexivity.
Qed.

(** ** The endpoint on concrete requests *)

(** Start-up with only the key set, [parseInt(undefined)] being [NaN]. *)
Example load_CONFIG_defaults :
  load_CONFIG (fun _ => PrimFloat.nan) (Some (js"sk-test")) None None
  = Some sample_config.
Proof. vm_compute. reflexivity. Qed.

(** The falsy values a JSON body can give to [messages]. *)
Example falsy_values :
  map truthy [VUndefined; VNull; VNumber PrimFloat.zero;
              VNumber PrimFloat.neg_zero; VString []; VBool false]
  = [false; false; false; false; false; false].
Proof. reflexivity. Qed.

(** The successful path: one call, one record, status 200. *)
Example chat_success :
  run_chat stringify_empty_object sample_config
    (sample_env (Return sample_reply))
    (post [(js"messages", VArray [user_message (js"  ciao ")])])
  = {| clock_reads := 3;
       console_log :=
         [{| timestamp := 20; ip := js"203.0.113.7"; success := true;
             responseTime := js"10ms";
             messagesCount := VNumber (number_of_nat 1) |}];
       console_error := [];
       fetched :=
         [call_for sample_config
            [{| role := VString (js"user"); content := js"ciao" |}]
            VUndefined];
       responses :=
         [{| status := 200;
             body := ChatOk (VString (js"hello")) (VObject [])
                       (VString (js"m")) |}] |}.
Proof. vm_compute. reflexivity. Qed.

(** An upstream 200 whose body has no [content]: [logMetrics] has run
    with [true] before building the answer throws, and runs again with
    [false] in the [catch] block. *)
Example chat_logs_twice_on_unexpected_body :
  map success
    (console_log
       (run_chat stringify_empty_object sample_config
          (sample_env (Return (sample_failure 200)))
          (post [(js"messages", VArray [user_message (js"ciao")])])))
  = [true; false].
Proof. vm_compute. reflexivity. Qed.

Lemma upstream_429_is_relayed_witness :
  responses
    (run_chat stringify_empty_object sample_config
       (sample_env (Return (sample_failure 429)))
       (post [(js"messages", VArray [user_message (js"ciao")])]))
  = [{| status := 429; body := ChatError Msg.UpstreamRateLimited None |}].
Proof.
  apply (upstream_429_is_relayed stringify_empty_object sample_config
           (sample_env (Return (sample_failure 429)))
           (post [(js"messages", VArray [user_message (js"ciao")])])
           (VArray [user_message (js"ciao")])
           (sample_failure 429) (VObject [])).
  - reflexivity.
  - reflexivity.
  - reflexivity.
  - intros call. reflexivity.
  - reflexivity.
  - reflexivity.
  - reflexivity.
Defined.

(** C6, as the spec states it, fails: an upstream 429 whose body does
    not parse as JSON is answered with 500. *)
Lemma upstream_429_unparsable_answered_500 :
  up_status sample_unparsable_429 = 429
  /\ responses
       (run_chat stringify_empty_object sample_config
          (sample_env (Return sample_unparsable_429))
          (post [(js"messages", VArray [user_message (js"ciao")])]))
     = [{| status := 500; body := ChatError Msg.ServerError None |}].
Proof. split; [reflexivity|]. vm_compute. reflexivity. Qed.

(** C7, as the spec states it, fails: a [systemPrompt] that is supplied
    as the empty string yields a request without [system]. *)
Lemma empty_system_prompt_is_dropped :
  get (VObject [(js"messages", VArray [user_message (js"ciao")]);
                (js"systemPrompt", VString [])]) "systemPrompt"
  = Return (VString [])
  /\ map (fun call => system (payload call))
       (fetched
          (run_chat stringify_empty_object sample_config
             (sample_env (Return sample_reply))
             (post [(js"messages", VArray [user_message (js"ciao")]);
                    (js"systemPrompt", VString [])])))
     = [None].
Proof. split; vm_compute; reflexivity. Qed.

Lemma system_field_iff_truthy_prompt_witness :
  exists systemPrompt,
    get (VObject [(js"messages", VArray [user_message (js"ciao")]);
                  (js"systemPrompt", VString (js" Sii breve. "))])
      "systemPrompt" = Return systemPrompt
    /\ Some (js"Sii breve.")
       = (if truthy systemPrompt then Some (sanitizeInput systemPrompt)
          else None).
Proof.
  apply (system_field_iff_truthy_prompt stringify_empty_object sample_config
           (sample_env (Return sample_reply))
           (post [(js"messages", VArray [user_message (js"ciao")]);
                  (js"systemPrompt", VString (js" Sii breve. "))])
           (call_for sample_config
              [{| role := VString (js"user"); content := js"ciao" |}]
              (VString (js" Sii breve. ")))).
  vm_compute. left. reflexivity.
Defined.

Lemma model_and_max_tokens_from_config_witness :
  (js"claude-sonnet-4-20250514" = MODEL sample_config
   /\ number_of_nat 1024 = MAX_TOKENS sample_config)
  /\ (js"claude-sonnet-4-20250514" = js"claude-sonnet-4-20250514"
      /\ number_of_nat 1024 = number_of_nat 1024).
Proof.
  apply (model_and_max_tokens_from_config
           stringify_empty_object stringify_empty_object sample_config
           (sample_env (Return sample_reply))
           (sample_env (Return (sample_failure 429)))
           (post [(js"messages", VArray [user_message (js"ciao")])])
           (post [(js"messages", VArray [user_message (js"salve")]);
                  (js"model", VString (js"another-model"));
                  (js"max_tokens", VNumber (number_of_nat 4096))])
           (call_for sample_config
              [{| role := VString (js"user"); content := js"ciao" |}]
              VUndefined)
           (call_for sample_config
              [{| role := VString (js"user"); content := js"salve" |}]
              VUndefined)).
  - vm_compute. left. reflexivity.
  - vm_compute. left. reflexivity.
Defined.

Lemma falsy_messages_reported_missing_witness :
  run_chat stringify_empty_object sample_config
    (sample_env (Return sample_reply))
    (post [(js"messages", VString [])])
  = {| clock_reads := 1;
       console_log := [];
       console_error := [];
       fetched := [];
       responses := [{| status := 400;
                        body := ChatError Msg.MissingMessages None |}] |}
  /\ validateMessages (VString []) = Throw Msg.InvalidFormat.
Proof.
  apply (falsy_messages_reported_missing stringify_empty_object sample_config
           (sample_env (Return sample_reply))
           (post [(js"messages", VString [])]) (VString []));
    reflexivity.
Defined.

(** * Further properties of the code *)

(** ** [sanitizeInput] *)

Module SanitizerShape.
Import JsString JsStringFacts.

Lemma trimStart_split (s : jsstring) :
  exists pre, s = pre ++ trimStart s /\ forallb is_space pre = true.
Proof.
  induction s as [|c s (pre & E & Hpre)]; [exists []; split; reflexivity|].
  simpl. destruct (is_space c) eqn:Hc.
  - exists (c :: pre). simpl. rewrite Hc, Hpre, <- E. split; reflexivity.
  - exists []. split; reflexivity.
Qed.

Lemma trimEnd_split (s : jsstring) :
  exists post, s = trimEnd s ++ post /\ forallb is_space post = true.
Proof.
  induction s as [|c s (post & E & Hpost)]; [exists []; split; reflexivity|].
  simpl. destruct (trimEnd s) as [|x r] eqn:R.
  - simpl in E. subst s. destruct (is_space c) eqn:Hc.
    + exists (c :: post). simpl. rewrite Hc, Hpost. split; reflexivity.
    + exists post. split; [reflexivity | exact Hpost].
  - exists post. split; [|exact Hpost]. simpl. rewrite E at 1. reflexivity.
Qed.

(** X1: the strings [sanitizeInput] returns unchanged are exactly those
    of at most 4000 code units with no white space at either end. *)
Theorem sanitizeInput_fixed_iff (s : jsstring) :
  sanitizeInput (VString s) = s
  <-> ((List.length s <= 4000)%nat
       /\ starts_with_space s = false /\ ends_with_space s = false).
Proof.
  split.
  - intros H.
    assert (Hl : (List.length s <= 4000)%nat)
      by (rewrite <- H; apply Sanitizer.sanitizeInput_length).
    split; [exact Hl|]. split.
    + rewrite <- H. apply Sanitizer.sanitizeInput_clean_start.
    + pose proof (trim_length s) as Ht.
      rewrite Sanitizer.sanitizeInput_short in H by lia.
      rewrite <- H. apply trim_clean_end.
  - intros (Hl & Hs & He). apply Sanitizer.sanitizeInput_fixed; assumption.
Qed.

Lemma sanitizeInput_fixed_iff_witness :
  sanitizeInput (VString (js"ciao a tutti")) = js"ciao a tutti".
Proof.
  apply (proj2 (sanitizeInput_fixed_iff (js"ciao a tutti"))).
  repeat split; vm_compute; try reflexivity. lia.
Defined.

(** X2: [sanitizeInput] only cuts at the two ends.  Its output is a
    window of the input: what precedes it is white space, and what
    follows it is white space too unless the cut at 4000 applied. *)
Theorem sanitizeInput_window (s : jsstring) :
  exists pre post,
    s = pre ++ sanitizeInput (VString s) ++ post
    /\ forallb is_space pre = true
    /\ ((List.length (trim s) <= 4000)%nat -> forallb is_space post = true).
Proof.
  destruct (trimStart_split s) as (pre & Es & Hpre).
  destruct (trimEnd_split (trimStart s)) as (post & Ee & Hpost).
  fold (trim s) in Ee.
  exists pre, (skipn 4000 (trim s) ++ post). split; [|split].
  - rewrite Sanitizer.sanitizeInput_string. unfold slice0.
    rewrite (app_assoc (firstn 4000 (trim s))), (firstn_skipn 4000 (trim s)).
    rewrite <- Ee. exact Es.
  - exact Hpre.
  - intros H. rewrite skipn_all2 by exact H. exact Hpost.
Qed.

End SanitizerShape.

(** ** [validateMessages] *)

Module ValidatorShape.

(** X3: [validateMessages] never returns [false]; it returns [true]
    exactly for an array of 1 to 50 entries, each with a [role] equal to
    ["user"] or ["assistant"] and a truthy [content], and throws
    otherwise. *)
Theorem validateMessages_accepts_iff (v : value) :
  validateMessages v <> Return false
  /\ (validateMessages v = Return true
      <-> exists items,
           v = VArray items /\ (1 <= List.length items <= 50)%nat
           /\ forallb admissible items = true).
Proof.
  split.
  - intros H. apply Validator.validateMessages_ok in H.
    destruct H as [H _]. discriminate H.
  - rewrite Validator.validateMessages_ok. tauto.
Qed.

Lemma validateMessages_accepts_iff_witness :
  validateMessages (VArray [user_message (js"ciao")]) = Return true.
Proof.
  apply (proj2 (proj2 (validateMessages_accepts_iff
                         (VArray [user_message (js"ciao")])))).
  exists [user_message (js"ciao")]. repeat split; simpl; lia.
Defined.

Lemma check_messages_first_offender (pre : list value) (msg : value)
    (post : list value) (e : jsstring) :
  forallb admissible pre = true ->
  check_message msg = Throw e ->
  check_messages (pre ++ msg :: post) = Throw e.
Proof.
  induction pre as [|m pre IH]; simpl.
  - intros _ C. rewrite C. reflexivity.
  - rewrite andb_true_iff. intros [Hm Hpre] C.
    apply Validator.check_message_ok in Hm. rewrite Hm. simpl.
    apply IH; assumption.
Qed.

(** X4: in a conversation of 1 to 50 entries, the failure reported is
    that of the first entry that is not admissible.  A [null] (or
    [undefined]) entry surfaces as the [TypeError] of reading its
    [role]; an entry whose [role] or [content] is falsy is a
    [MalformedMessage]; an entry with both truthy and a [role] other
    than ["user"] and ["assistant"] is an [InvalidRole]. *)
Theorem validateMessages_first_offender (pre : list value) (msg : value)
    (post : list value) :
  (1 <= List.length (pre ++ msg :: post) <= 50)%nat ->
  forallb admissible pre = true ->
  (forall e, get msg "role" = Throw e ->
             validateMessages (VArray (pre ++ msg :: post))
             = Throw (TypeError_read msg "role"))
  /\ (forall r c, get msg "role" = Return r -> get msg "content" = Return c ->
                  truthy r && truthy c = false ->
                  validateMessages (VArray (pre ++ msg :: post))
                  = Throw Msg.MalformedMessage)
  /\ (forall r c, get msg "role" = Return r -> get msg "content" = Return c ->
                  truthy r = true -> truthy c = true ->
                  is_known_role r = false ->
                  validateMessages (VArray (pre ++ msg :: post))
                  = Throw Msg.InvalidRole).
Proof.
  intros Hlen Hpre.
  assert (Hstep : forall e, check_message msg = Throw e ->
                            validateMessages (VArray (pre ++ msg :: post))
                            = Throw e).
  { intros e C. simpl.
    destruct (Nat.eqb_spec (List.length (pre ++ msg :: post)) 0) as [E0|E0];
      [lia|].
    destruct (Nat.ltb_spec 50 (List.length (pre ++ msg :: post)))
      as [E50|E50]; [lia|].
    rewrite (check_messages_first_offender pre msg post e Hpre C).
    reflexivity. }
  split; [|split].
  - intros e G. apply Hstep. unfold check_message. rewrite G. simpl.
    rewrite (Validator.get_nullish _ _ _ G). reflexivity.
  - intros r c Gr Gc H. apply Hstep. unfold check_message, rbind.
    rewrite Gr. destruct (truthy r); simpl; [|reflexivity].
    rewrite Gc. simpl in H. rewrite H. reflexivity.
  - intros r c Gr Gc Hr Hc Hk. apply Hstep. unfold check_message, rbind.
    rewrite Gr, Hr. simpl. rewrite Gc, Hc. simpl. rewrite Hk. reflexivity.
Qed.

Lemma validateMessages_first_offender_witness :
  validateMessages
    (VArray [user_message (js"ciao");
             VObject [(js"role", VString (js"system"));
                      (js"content", VString (js"hi"))];
             VNull])
  = Throw Msg.InvalidRole.
Proof.
  refine (proj2 (proj2 (validateMessages_first_offender
                          [user_message (js"ciao")]
                          (VObject [(js"role", VString (js"system"));
                                    (js"content", VString (js"hi"))])
                          [VNull] _ _))
            (VString (js"system")) (VString (js"hi")) _ _ _ _ _);
    try reflexivity.
  simpl. lia.
Defined.

(** X5: [InvalidFormat] is thrown exactly for a value that is not an
    array, and [EmptyConversation] exactly for the empty array. *)
Theorem validateMessages_format_errors (v : value) :
  (validateMessages v = Throw Msg.InvalidFormat
   <-> forall items, v <> VArray items)
  /\ (validateMessages v = Throw Msg.EmptyConversation <-> v = VArray []).
Proof.
  assert (Hloop : forall items e,
             check_messages items = Throw e ->
             e <> Msg.InvalidFormat /\ e <> Msg.EmptyConversation).
  { intros items e C.
    destruct (Validator.check_messages_error _ _ C) as [E|[E|(m & _ & E)]];
      subst e; split; intros E; vm_compute in E; discriminate E. }
  split; split.
  - intros H items ->. simpl in H.
    destruct (List.length items =? 0)%nat;
      [inversion H as [E]; vm_compute in E; discriminate E|].
    destruct (50 <? List.length items)%nat;
      [inversion H as [E]; vm_compute in E; discriminate E|].
    unfold rbind in H.
    destruct (check_messages items) as [[]|e] eqn:C; [discriminate H|].
    inversion H; subst. destruct (Hloop _ _ C) as [Hne _]. apply Hne.
    reflexivity.
  - intros H. destruct v; try reflexivity. exfalso. apply (H items).
    reflexivity.
  - intros H. destruct v; simpl in H;
      try (inversion H as [E]; vm_compute in E; discriminate E).
    destruct items as [|m items]; [reflexivity|]. exfalso.
    change (validateMessages (VArray (m :: items)))
      with (if (50 <? List.length (m :: items))%nat
            then Throw Msg.TooManyMessages
            else rbind (check_messages (m :: items)) (fun _ => Return true))
      in H.
    destruct (50 <? List.length (m :: items))%nat;
      [inversion H as [E]; vm_compute in E; discriminate E|].
    unfold rbind in H.
    destruct (check_messages (m :: items)) as [[]|e] eqn:C;
      [discriminate H|].
    inversion H; subst. destruct (Hloop _ _ C) as [_ Hne]. apply Hne.
    reflexivity.
  - intros ->. reflexivity.
Qed.

Lemma validateMessages_format_errors_witness :
  validateMessages (VObject [(js"0", user_message (js"ciao"))])
  = Throw Msg.InvalidFormat.
Proof.
  apply (proj2 (proj1 (validateMessages_format_errors
                         (VObject [(js"0", user_message (js"ciao"))])))).
  intros items H. discriminate H.
Defined.

End ValidatorShape.

(** ** [CONFIG] *)

(** X6: start-up stops exactly when the key is unset or empty.  A
    configuration that is loaded has a non-empty key, the fixed
    endpoint, a non-empty model name and a [MAX_TOKENS] that is neither
    zero nor [NaN], whatever the environment holds. *)
Theorem load_CONFIG_invariants (parseInt : option jsstring -> float)
    (key model tokens : option jsstring) :
  (load_CONFIG parseInt key model tokens = None
   <-> key = None \/ key = Some [])
  /\ (forall config,
        load_CONFIG parseInt key model tokens = Some config ->
        key = Some (ANTHROPIC_API_KEY config)
        /\ ANTHROPIC_API_KEY config <> []
        /\ ANTHROPIC_API_URL config
           = js"https://api.anthropic.com/v1/messages"
        /\ MODEL config <> []
        /\ truthy (VNumber (MAX_TOKENS config)) = true).
Proof.
  split.
  - unfold load_CONFIG. destruct key as [[|c k]|]; split; intros H;
      try discriminate H; auto; destruct H as [H|H]; discriminate H.
  - intros config H. unfold load_CONFIG in H.
    destruct key as [[|c k]|]; try discriminate H.
    inversion H; subst config; clear H.
    cbn [ANTHROPIC_API_KEY ANTHROPIC_API_URL MODEL MAX_TOKENS].
    repeat split; try discriminate.
    + destruct model as [[|m ms]|]; discriminate.
    + match goal with
      | |- context [if ?b then _ else _] => destruct b eqn:E
      end; [exact E | reflexivity].
Qed.

Lemma load_CONFIG_invariants_witness :
  Some (js"sk-test") = Some (ANTHROPIC_API_KEY sample_config)
  /\ ANTHROPIC_API_KEY sample_config <> []
  /\ ANTHROPIC_API_URL sample_config
     = js"https://api.anthropic.com/v1/messages"
  /\ MODEL sample_config <> []
  /\ truthy (VNumber (MAX_TOKENS sample_config)) = true.
Proof.
  apply (proj2 (load_CONFIG_invariants (fun _ => PrimFloat.nan)
                  (Some (js"sk-test")) (Some []) None)).
  vm_compute. reflexivity.
Defined.

(** ** [logMetrics] *)

Module Metrics.

Lemma all_from_spec (test : Z -> bool) (k : nat) (z : Z) :
  all_from test k z = true ->
  forall i, (i < k)%nat -> test (z + Z.of_nat i)%Z = true.
Proof.
  revert z. induction k as [|k IH]; intros z H i Hi; [lia|].
  simpl in H. apply andb_true_iff in H. destruct H as [Hz Hrest].
  destruct i as [|i].
  - rewrite Z.add_0_r. exact Hz.
  - replace (z + Z.of_nat (S i))%Z with (Z.succ z + Z.of_nat i)%Z by lia.
    apply IH; [exact Hrest | lia].
Qed.

(** A length within the body limit is falsy only when it is zero. *)
Lemma length_truthy (n : nat) :
  (n <= body_limit)%nat ->
  truthy (VNumber (number_of_nat n)) = negb (n =? 0)%nat.
Proof.
  intros H.
  assert (A : all_from
                (fun z => Bool.eqb
                            (truthy (VNumber (PrimFloat.of_uint63
                                                (Uint63.of_Z z))))
                            (negb (z =? 0)%Z))
                (S body_limit) 0 = true)
    by (vm_compute; reflexivity).
  pose proof (all_from_spec _ _ _ A n ltac:(lia)) as T.
  cbv beta in T. apply eqb_prop in T. rewrite Z.add_0_l in T.
  unfold number_of_nat. rewrite T. destruct n; reflexivity.
Qed.

Lemma count_of_length (n : nat) :
  (n <= body_limit)%nat ->
  (if truthy (VNumber (number_of_nat n)) then VNumber (number_of_nat n)
   else VNumber (number_of_nat 0))
  = VNumber (number_of_nat n).
Proof.
  intros H. rewrite (length_truthy n H). destruct n; reflexivity.
Qed.

End Metrics.

(** ** Looking for a marker in an error message *)

Module Markers.
Import JsString.

Lemma includes_cons (p : jsstring) (c : code_unit) (s : jsstring) :
  includes p (c :: s) = startsWith p (c :: s) || includes p s.
Proof. reflexivity. Qed.

(** A marker found in the tail is found in the whole. *)
Lemma includes_app_r (p pre s : jsstring) :
  includes p s = true -> includes p (pre ++ s) = true.
Proof.
  intros H. induction pre as [|c pre IH]; [exact H|].
  change ((c :: pre) ++ s) with (c :: pre ++ s).
  rewrite includes_cons, IH. apply orb_true_r.
Qed.

Lemma agree_startsWith (p pre s : jsstring) :
  agree p pre = false -> startsWith p (pre ++ s) = false.
Proof.
  revert pre. induction p as [|a p IH]; intros pre H; [discriminate H|].
  destruct pre as [|b pre]; [discriminate H|].
  simpl in H |- *. destruct (a =? b); simpl in *; [apply IH, H | reflexivity].
Qed.

(** A head that is clear of the marker does not matter. *)
Lemma includes_clear (p pre s : jsstring) :
  clear_of p pre = true -> includes p (pre ++ s) = includes p s.
Proof.
  induction pre as [|c pre IH]; [reflexivity|].
  intros H. change (clear_of p (c :: pre))
    with (negb (agree p (c :: pre)) && clear_of p pre) in H.
  apply andb_true_iff in H. destruct H as [Ha Hc].
  apply negb_true_iff in Ha.
  change ((c :: pre) ++ s) with (c :: pre ++ s).
  rewrite includes_cons, (IH Hc).
  change (c :: pre ++ s) with ((c :: pre) ++ s).
  rewrite (agree_startsWith p (c :: pre) s Ha). reflexivity.
Qed.

Lemma api_error_split (stringify : value -> jsstring) (code : N)
    (errorData : value) :
  api_error stringify code errorData
  = api_error_head code ++ stringify errorData.
Proof.
  unfold api_error, api_error_head. rewrite <- !app_assoc. reflexivity.
Qed.

(** For a three-digit status, the head of the message holds the 401
    marker only for 401 and the 429 marker only for 429. *)
Lemma api_error_head_clear (code : N) :
  100 <= code <= 999 ->
  (code <> 401 -> clear_of (js"API Error: 401") (api_error_head code) = true)
  /\ (code <> 429 ->
      clear_of (js"API Error: 429") (api_error_head code) = true).
Proof.
  intros Hc.
  assert (A : all_from
                (fun z =>
                   ((z =? 401)%Z
                    || clear_of (js"API Error: 401")
                         (api_error_head (Z.to_N z)))
                   && ((z =? 429)%Z
                       || clear_of (js"API Error: 429")
                            (api_error_head (Z.to_N z))))
                900 100 = true)
    by (vm_compute; reflexivity).
  pose proof (Metrics.all_from_spec _ _ _ A (N.to_nat code - 100)
                ltac:(lia)) as T.
  cbv beta in T.
  replace (100 + Z.of_nat (N.to_nat code - 100))%Z with (Z.of_N code) in T
    by lia.
  rewrite N2Z.id in T. apply andb_true_iff in T. destruct T as [T1 T2].
  split; intros Hne.
  - apply orb_true_iff in T1. destruct T1 as [T1|T1]; [|exact T1].
    apply Z.eqb_eq in T1. lia.
  - apply orb_true_iff in T2. destruct T2 as [T2|T2]; [|exact T2].
    apply Z.eqb_eq in T2. lia.
Qed.

End Markers.

(** ** Every run of the handler *)

Section ChatRuns.

Variable JSON_stringify : value -> jsstring.
Variable config : CONFIG.
Variable env : environment.

(** The world after the first reading of the clock. *)
Definition started : world :=
  {| clock_reads := 1; console_log := []; console_error := [];
     fetched := []; responses := [] |}.

Lemma run_chat_unfold (req : request) :
  run_chat JSON_stringify config env req
  = snd (match chat_try JSON_stringify config env req (Date_now env 0) started
         with
         | (Return a, w) => (Return a, w)
         | (Throw e, w) => chat_catch env req (Date_now env 0) e w
         end).
Proof. reflexivity. Qed.

(** [logMetrics], record by record. *)
Lemma logMetrics_exact (req : request) (elapsed : Z) (ok : bool)
    (msgs len : value) (w : world) :
  get (req_body req) "messages" = Return msgs ->
  optional_length msgs = Return len ->
  logMetrics env req elapsed ok w
  = (Return tt,
     {| clock_reads := S (clock_reads w);
        console_log :=
          console_log w
          ++ [{| timestamp := Date_now env (clock_reads w);
                 ip := req_ip req;
                 success := ok;
                 responseTime := JsString.of_Z elapsed ++ js"ms";
                 messagesCount := if truthy len then len
                                  else VNumber (number_of_nat 0) |}];
        console_error := console_error w;
        fetched := fetched w;
        responses := responses w |}).
Proof.
  intros G L. unfold logMetrics. rewrite bind_run. simpl.
  rewrite bind_run, lift_run, G, bind_run, lift_run, L. reflexivity.
Qed.

(** X7: on a request whose body is an object, [logMetrics] reads the
    clock once and prints one record and nothing else: the time read,
    the client, the flag and the elapsed time it was given, and as
    [messagesCount] the length of [messages] when that is an array or a
    string (within the body limit), 0 when it is absent, [null], a
    boolean or a number.  On a body that is [null] or [undefined] it
    throws instead, after reading the clock. *)
Theorem logMetrics_record (req : request) (elapsed : Z) (ok : bool)
    (w : world) :
  (forall msgs,
      get (req_body req) "messages" = Return msgs ->
      exists count,
        logMetrics env req elapsed ok w
        = (Return tt,
           {| clock_reads := S (clock_reads w);
              console_log :=
                console_log w
                ++ [{| timestamp := Date_now env (clock_reads w);
                       ip := req_ip req;
                       success := ok;
                       responseTime := JsString.of_Z elapsed ++ js"ms";
                       messagesCount := count |}];
              console_error := console_error w;
              fetched := fetched w;
              responses := responses w |})
        /\ (forall items, msgs = VArray items ->
                          (List.length items <= body_limit)%nat ->
                          count = VNumber (number_of_nat (List.length items)))
        /\ (forall s, msgs = VString s ->
                      (List.length s <= body_limit)%nat ->
                      count = VNumber (number_of_nat (List.length s)))
        /\ (msgs = VUndefined \/ msgs = VNull
            \/ (exists b, msgs = VBool b) \/ (exists x, msgs = VNumber x) ->
            count = VNumber (number_of_nat 0)))
  /\ (forall e,
        get (req_body req) "messages" = Throw e ->
        logMetrics env req elapsed ok w
        = (Throw (TypeError_read (req_body req) "messages"),
           {| clock_reads := S (clock_reads w);
              console_log := console_log w;
              console_error := console_error w;
              fetched := fetched w;
              responses := responses w |})).
Proof.
  split.
  - intros msgs G. destruct (optional_length_total msgs) as [len L].
    eexists. split; [apply (logMetrics_exact req elapsed ok msgs len w G L)|].
    split; [|split].
    + intros items -> Hn. simpl in L. inversion L; subst len.
      apply Metrics.count_of_length, Hn.
    + intros s -> Hn. simpl in L. inversion L; subst len.
      apply Metrics.count_of_length, Hn.
    + intros [->|[->|[[b ->]|[x ->]]]]; simpl in L; inversion L; reflexivity.
  - intros e G. unfold logMetrics. rewrite bind_run. simpl.
    rewrite bind_run, lift_run, G.
    rewrite (Validator.get_nullish _ _ _ G). reflexivity.
Qed.


(** *** What the [try] block leaves behind *)

Ltac done_try :=
  simpl; repeat split; first [reflexivity | assumption | eauto 6].

(** The [try] block either answers (400 without a record, or 200 after
    one record flagged with success) or throws without having answered,
    after at most one record; it writes nothing to [console.error]. *)
Lemma chat_try_outcome (req : request) (startTime : Z) (msgs : value)
    (w : world) :
  get (req_body req) "messages" = Return msgs ->
  match chat_try JSON_stringify config env req startTime w with
  | (Return _, w') =>
      console_error w' = console_error w
      /\ ((console_log w' = console_log w
           /\ truthy msgs = false
           /\ responses w'
              = responses w
                ++ [{| status := 400;
                       body := ChatError Msg.MissingMessages None |}])
          \/ (exists line text usage used,
                 truthy msgs = true
                 /\ success line = true
                 /\ console_log w' = console_log w ++ [line]
                 /\ responses w'
                    = responses w
                      ++ [{| status := 200;
                             body := ChatOk text usage used |}]))
  | (Throw e, w') =>
      console_error w' = console_error w
      /\ truthy msgs = true
      /\ responses w' = responses w
      /\ (console_log w' = console_log w
          \/ exists line,
               success line = true
               /\ console_log w' = console_log w ++ [line])
  end.
Proof.
  intros G. destruct (destructure_body_of_messages _ _ G) as [sp D].
  unfold chat_try. rewrite bind_run, lift_run, D.
  destruct (truthy msgs) eqn:T; simpl; [|done_try].
  rewrite bind_run, lift_run.
  destruct (validateMessages msgs) as [b|e]; [|done_try].
  rewrite bind_run, lift_run.
  destruct (sanitize_all msgs) as [sanitized|e]; [|done_try].
  rewrite bind_run. unfold do_fetch.
  destruct (fetch env _) as [r|e]; [|done_try].
  destruct (negb (up_ok r)).
  - rewrite bind_run, lift_run. destruct (up_json r); done_try.
  - rewrite bind_run, lift_run.
    destruct (up_json r) as [data|e]; [|done_try].
    rewrite bind_run. simpl. rewrite bind_run.
    match goal with
    | |- context [logMetrics env req ?t true ?w0] =>
        destruct (logMetrics_run env req t true msgs w0 G)
          as (line & Hline & ->)
    end.
    rewrite bind_run, lift_run.
    destruct (get data "content") as [blocks|e]; [|done_try].
    rewrite bind_run, lift_run.
    destruct (get0 blocks) as [block|e]; [|done_try].
    rewrite bind_run, lift_run.
    destruct (get block "text") as [text|e]; [|done_try].
    rewrite bind_run, lift_run.
    destruct (get data "usage") as [usage|e]; [|done_try].
    rewrite bind_run, lift_run.
    destruct (get data "model") as [used|e]; [|done_try].
    simpl. split; [reflexivity|]. right. exists line, text, usage, used.
    auto.
Qed.

(** *** What a run leaves behind *)

(** The three ways a run on a body that is an object can go: the guard
    answers 400; the conversation is relayed and answered 200; or an
    error is caught, written to [console.error] and classified by its
    message. *)
Lemma run_chat_outcome (req : request) (msgs : value) :
  get (req_body req) "messages" = Return msgs ->
  (truthy msgs = false
   /\ console_error (run_chat JSON_stringify config env req) = []
   /\ console_log (run_chat JSON_stringify config env req) = []
   /\ responses (run_chat JSON_stringify config env req)
      = [{| status := 400; body := ChatError Msg.MissingMessages None |}])
  \/ (exists line text usage used,
         truthy msgs = true
         /\ console_error (run_chat JSON_stringify config env req) = []
         /\ success line = true
         /\ console_log (run_chat JSON_stringify config env req) = [line]
         /\ responses (run_chat JSON_stringify config env req)
            = [{| status := 200; body := ChatOk text usage used |}])
  \/ (exists e line,
         truthy msgs = true
         /\ console_error (run_chat JSON_stringify config env req) = [e]
         /\ success line = false
         /\ (console_log (run_chat JSON_stringify config env req) = [line]
             \/ exists first,
                  success first = true
                  /\ console_log (run_chat JSON_stringify config env req)
                     = [first; line])
         /\ ((JsString.includes (js"API Error: 401") e = true
              /\ responses (run_chat JSON_stringify config env req)
                 = [{| status := 500;
                       body := ChatError Msg.UpstreamAuth None |}])
             \/ (JsString.includes (js"API Error: 401") e = false
                 /\ JsString.includes (js"API Error: 429") e = true
                 /\ responses (run_chat JSON_stringify config env req)
                    = [{| status := 429;
                          body := ChatError Msg.UpstreamRateLimited None |}])
             \/ (JsString.includes (js"API Error: 401") e = false
                 /\ JsString.includes (js"API Error: 429") e = false
                 /\ responses (run_chat JSON_stringify config env req)
                    = [{| status := 500;
                          body :=
                            ChatError Msg.ServerError
                              (match NODE_ENV env with
                               | Some mode =>
                                   if JsString.eqb mode (js"development")
                                   then Some e else None
                               | None => None
                               end) |}]))).
Proof.
  intros G. rewrite run_chat_unfold.
  pose proof (chat_try_outcome req (Date_now env 0) msgs started G) as H.
  destruct (chat_try JSON_stringify config env req (Date_now env 0) started)
    as [[[]|e] w'].
  - destruct H as (He & [(Hl & T & Hr)|(line & text & usage & used
                                       & T & Hs & Hl & Hr)]).
    + left. simpl. rewrite He, Hl, Hr. auto.
    + right; left. exists line, text, usage, used. simpl.
      rewrite He, Hl, Hr. auto.
  - destruct H as (He & T & Hr & Hl). right; right.
    destruct (chat_catch_run env req (Date_now env 0) e msgs w' G)
      as (line & Hs & ->).
    exists e, line. split; [exact T|].
    split; [simpl; rewrite He; reflexivity|]. split; [exact Hs|]. split.
    + destruct Hl as [Hl|(first & Hf & Hl)]; simpl; rewrite Hl;
        [left; reflexivity | right; exists first; auto].
    + simpl. rewrite Hr.
      destruct (JsString.includes (js"API Error: 401") e); [auto|].
      destruct (JsString.includes (js"API Error: 429") e); auto 6.
Qed.

(** X10: on a body that is an object the handler answers exactly once,
    with status 200, 400, 429 or 500; the status is 400 exactly when
    [messages] is falsy. *)
Theorem chat_answers_once (req : request) (msgs : value) :
  get (req_body req) "messages" = Return msgs ->
  exists answer,
    responses (run_chat JSON_stringify config env req) = [answer]
    /\ (status answer = 200 \/ status answer = 400
        \/ status answer = 429 \/ status answer = 500)
    /\ (status answer = 400 <-> truthy msgs = false).
Proof.
  intros G.
  destruct (run_chat_outcome req msgs G)
    as [(T & _ & _ & ->)
       |[(line & text & usage & used & T & _ & _ & _ & ->)
        |(e & line & T & _ & _ & _
          & [(_ & ->)|[(_ & _ & ->)|(_ & _ & ->)]])]];
    eexists; (split; [reflexivity|]); simpl;
    (split; [auto|]); rewrite T; split; intros Hx;
    try discriminate Hx; reflexivity.
Qed.

(** X11: what is printed with each answer.  A 400 comes with no
    metrics record; a 200 with exactly one, flagged [success: true],
    and nothing on [console.error]; a 429 or 500 with the caught
    message on [console.error] and a last record flagged
    [success: false], preceded by at most one record, flagged
    [success: true]. *)
Theorem chat_records_match_answer (req : request) (msgs : value)
    (answer : http_response) :
  get (req_body req) "messages" = Return msgs ->
  In answer (responses (run_chat JSON_stringify config env req)) ->
  (status answer = 400 ->
   console_log (run_chat JSON_stringify config env req) = []
   /\ console_error (run_chat JSON_stringify config env req) = [])
  /\ (status answer = 200 ->
      map success (console_log (run_chat JSON_stringify config env req))
      = [true]
      /\ console_error (run_chat JSON_stringify config env req) = [])
  /\ (status answer = 429 \/ status answer = 500 ->
      (map success (console_log (run_chat JSON_stringify config env req))
       = [false]
       \/ map success (console_log (run_chat JSON_stringify config env req))
          = [true; false])
      /\ exists e,
           console_error (run_chat JSON_stringify config env req) = [e]).
Proof.
  intros G Hin.
  destruct (run_chat_outcome req msgs G)
    as [(T & He & Hl & Hr)
       |[(line & text & usage & used & T & He & Hs & Hl & Hr)
        |(e & line & T & He & Hs & Hl & Hr)]].
  - rewrite Hr in Hin. destruct Hin as [<-|[]]. simpl.
    split; [|split].
    + intros _. rewrite Hl, He. auto.
    + intros Hx. discriminate Hx.
    + intros [Hx|Hx]; discriminate Hx.
  - rewrite Hr in Hin. destruct Hin as [<-|[]]. simpl.
    split; [|split].
    + intros Hx. discriminate Hx.
    + intros _. rewrite Hl, He. simpl. rewrite Hs. auto.
    + intros [Hx|Hx]; discriminate Hx.
  - assert (Hlogs : map success
                      (console_log (run_chat JSON_stringify config env req))
                    = [false]
                    \/ map success
                         (console_log (run_chat JSON_stringify config env req))
                       = [true; false]).
    { destruct Hl as [->|(first & Hf & ->)]; simpl; rewrite Hs;
        [left; reflexivity | right; rewrite Hf; reflexivity]. }
    assert (Hstatus : status answer = 429 \/ status answer = 500).
    { destruct Hr as [(_ & Hr)|[(_ & _ & Hr)|(_ & _ & Hr)]];
        rewrite Hr in Hin; destruct Hin as [<-|[]]; simpl; auto. }
    split; [|split].
    + intros H. destruct Hstatus as [H'|H']; rewrite H' in H; discriminate H.
    + intros H. destruct Hstatus as [H'|H']; rewrite H' in H; discriminate H.
    + intros _. split; [exact Hlogs|]. exists e. exact He.
Qed.

(** X12: an answer carries [details] only in development.  When it
    does, it is the generic 500, and [details] is the message that was
    caught and written to [console.error]. *)
Theorem chat_details_only_in_development (req : request) (msgs : value)
    (answer : http_response) (error details : jsstring) :
  get (req_body req) "messages" = Return msgs ->
  In answer (responses (run_chat JSON_stringify config env req)) ->
  body answer = ChatError error (Some details) ->
  NODE_ENV env = Some (js"development")
  /\ status answer = 500
  /\ error = Msg.ServerError
  /\ console_error (run_chat JSON_stringify config env req) = [details].
Proof.
  intros G Hin Hbody.
  destruct (run_chat_outcome req msgs G)
    as [(T & He & Hl & Hr)
       |[(line & text & usage & used & T & He & Hs & Hl & Hr)
        |(e & line & T & He & Hs & Hl
          & [(_ & Hr)|[(_ & _ & Hr)|(_ & _ & Hr)]])]];
    rewrite Hr in Hin; destruct Hin as [<-|[]]; simpl in Hbody;
    try discriminate Hbody.
  destruct (NODE_ENV env) as [mode|]; [|discriminate Hbody].
  unfold JsString.eqb in Hbody.
  destruct (list_eq_dec N.eq_dec mode (js"development")) as [->|_];
    [|discriminate Hbody].
  inversion Hbody; subst. simpl. auto.
Qed.

(** *** The upstream call *)

Ltac kept :=
  repeat first
    [ apply keeps_ret | apply keeps_throw | apply keeps_lift
    | apply keeps_now | apply keeps_log | apply keeps_log_error
    | apply keeps_respond | apply keeps_logMetrics
    | apply keeps_bind; [|intro; cbv beta]
    | match goal with
      | |- keeps_fetched (if ?b then _ else _) => destruct b
      end ].

Lemma run_chat_fetched_try (req : request) :
  fetched (run_chat JSON_stringify config env req)
  = fetched (snd (chat_try JSON_stringify config env req (Date_now env 0)
                    started)).
Proof.
  rewrite run_chat_unfold.
  destruct (chat_try JSON_stringify config env req (Date_now env 0) started)
    as [[[]|e] w']; [reflexivity|].
  apply keeps_chat_catch.
Qed.

Lemma chat_try_fetches (req : request) (startTime : Z) (msgs sp : value)
    (sanitized : list Message) (w : world) :
  destructure_body (req_body req) = Return (msgs, sp) ->
  truthy msgs = true ->
  validateMessages msgs = Return true ->
  sanitize_all msgs = Return sanitized ->
  fetched (snd (chat_try JSON_stringify config env req startTime w))
  = fetched w ++ [call_for config sanitized sp].
Proof.
  intros D T V S. unfold chat_try.
  rewrite bind_run, lift_run, D, T. simpl.
  rewrite bind_run, lift_run, V, bind_run, lift_run, S, bind_run.
  unfold do_fetch. fold (call_for config sanitized sp).
  destruct (fetch env (call_for config sanitized sp)) as [r|e];
    [|reflexivity].
  match goal with
  | |- fetched (snd (?m ?w')) = _ =>
      assert (K : keeps_fetched m) by kept; rewrite (K w')
  end.
  reflexivity.
Qed.

(** X8: the handler calls the upstream service at most once, and does
    so exactly when [messages] is truthy and passes [validateMessages];
    the call goes to the configured endpoint with the configured key.
    A request that is refused costs no upstream call, and a failed call
    is not repeated. *)
Theorem chat_calls_upstream_once (req : request) :
  ((exists msgs,
       get (req_body req) "messages" = Return msgs
       /\ truthy msgs = true /\ validateMessages msgs = Return true) ->
   exists call,
     fetched (run_chat JSON_stringify config env req) = [call]
     /\ url call = ANTHROPIC_API_URL config
     /\ x_api_key call = ANTHROPIC_API_KEY config)
  /\ (~ (exists msgs,
            get (req_body req) "messages" = Return msgs
            /\ truthy msgs = true /\ validateMessages msgs = Return true) ->
      fetched (run_chat JSON_stringify config env req) = []).
Proof.
  split.
  - intros (msgs & G & T & V).
    destruct (destructure_body_of_messages _ _ G) as [sp D].
    destruct (sanitize_all_validated _ V) as [sanitized S].
    exists (call_for config sanitized sp).
    rewrite run_chat_fetched_try.
    rewrite (chat_try_fetches req _ msgs sp sanitized started D T V S).
    repeat split.
  - intros Hno.
    destruct (fetched (run_chat JSON_stringify config env req))
      as [|call rest] eqn:F; [reflexivity|].
    exfalso. apply Hno.
    destruct (run_chat_fetched JSON_stringify config env req call)
      as (msgs & sp & l & D & T & V & _).
    { rewrite F. left. reflexivity. }
    exists msgs. split; [|auto].
    apply (destructure_body_fields _ _ _ D).
Qed.

Lemma map_messages_each (items : list value) (sanitized : list Message) :
  map_messages items = Return sanitized ->
  Forall2 (fun msg sent =>
             get msg "role" = Return (role sent)
             /\ exists c, get msg "content" = Return c
                          /\ content sent = sanitizeInput c)
    items sanitized.
Proof.
  revert sanitized. induction items as [|msg rest IH]; simpl.
  - intros sanitized H. inversion H. constructor.
  - intros sanitized H. unfold sanitize_message, rbind in H.
    destruct (get msg "role") as [r|] eqn:Gr; [|discriminate H].
    destruct (get msg "content") as [c|] eqn:Gc; [|discriminate H].
    destruct (map_messages rest) as [l|]; [|discriminate H].
    inversion H; subst. constructor; [|apply IH; reflexivity].
    simpl. split; [exact Gr|]. exists c. auto.
Qed.

(** X9: the conversation sent upstream is the conversation received,
    entry by entry and in the same order: 1 to 50 messages, each with
    the [role] of the original, which is ["user"] or ["assistant"], and
    with the original's [content], which was truthy, passed through
    [sanitizeInput]. *)
Theorem chat_sends_sanitized_conversation (req : request)
    (call : fetch_call) :
  In call (fetched (run_chat JSON_stringify config env req)) ->
  exists items,
    get (req_body req) "messages" = Return (VArray items)
    /\ (1 <= List.length items <= 50)%nat
    /\ Forall2 (fun msg sent =>
                  get msg "role" = Return (role sent)
                  /\ is_known_role (role sent) = true
                  /\ exists c, get msg "content" = Return c
                               /\ truthy c = true
                               /\ content sent = sanitizeInput c)
         items (messages (payload call)).
Proof.
  intros Hin.
  destruct (run_chat_fetched JSON_stringify config env req call Hin)
    as (msgs & sp & sanitized & D & T & V & S & ->).
  apply Validator.validateMessages_ok in V.
  destruct V as (_ & items & -> & Hlen & Hall).
  exists items. split; [apply (destructure_body_fields _ _ _ D)|].
  split; [exact Hlen|]. simpl in S |- *.
  pose proof (map_messages_each items sanitized S) as H.
  clear S D Hlen Hin T. induction H as [|msg sent items sanitized H1 H IH];
    [constructor|].
  simpl in Hall. apply andb_true_iff in Hall. destruct Hall as [Hm Hrest].
  constructor; [|apply IH, Hrest].
  destruct H1 as (Gr & c & Gc & Hc). unfold admissible in Hm.
  rewrite Gr, Gc in Hm.
  apply andb_true_iff in Hm. destruct Hm as [Hm Htc].
  apply andb_true_iff in Hm. destruct Hm as [_ Hk].
  split; [exact Gr|]. split; [exact Hk|]. exists c. auto.
Qed.

(** *** The relay, path by path *)

Lemma run_chat_caught (req : request) (msgs : value) (e : jsstring)
    (w : world) :
  get (req_body req) "messages" = Return msgs ->
  chat_try JSON_stringify config env req (Date_now env 0) started
  = (Throw e, w) ->
  responses (run_chat JSON_stringify config env req)
  = responses w
    ++ [{| status :=
             if JsString.includes (js"API Error: 401") e then 500
             else if JsString.includes (js"API Error: 429") e then 429
             else 500;
           body :=
             if JsString.includes (js"API Error: 401") e
             then ChatError Msg.UpstreamAuth None
             else if JsString.includes (js"API Error: 429") e
             then ChatError Msg.UpstreamRateLimited None
             else ChatError Msg.ServerError
                    (match NODE_ENV env with
                     | Some mode =>
                         if JsString.eqb mode (js"development")
                         then Some e else None
                     | None => None
                     end) |}]
  /\ console_error (run_chat JSON_stringify config env req)
     = console_error w ++ [e]
  /\ map success (console_log (run_chat JSON_stringify config env req))
     = map success (console_log w) ++ [false].
Proof.
  intros G H. rewrite run_chat_unfold, H.
  destruct (chat_catch_run env req (Date_now env 0) e msgs w G)
    as (line & Hs & ->).
  simpl. rewrite map_app. simpl. rewrite Hs. auto.
Qed.

Lemma chat_try_transport (req : request) (startTime : Z) (msgs sp : value)
    (sanitized : list Message) (e : jsstring) (w : world) :
  destructure_body (req_body req) = Return (msgs, sp) ->
  truthy msgs = true ->
  validateMessages msgs = Return true ->
  sanitize_all msgs = Return sanitized ->
  (fetch env (call_for config sanitized sp) = Throw e
   \/ exists r, fetch env (call_for config sanitized sp) = Return r
                /\ up_json r = Throw e) ->
  chat_try JSON_stringify config env req startTime w
  = (Throw e,
     {| clock_reads := clock_reads w;
        console_log := console_log w;
        console_error := console_error w;
        fetched := fetched w ++ [call_for config sanitized sp];
        responses := responses w |}).
Proof.
  intros D T V S F. unfold chat_try.
  rewrite bind_run, lift_run, D, T. simpl.
  rewrite bind_run, lift_run, V, bind_run, lift_run, S, bind_run.
  unfold do_fetch. fold (call_for config sanitized sp).
  destruct F as [->|(r & -> & J)]; [reflexivity|].
  destruct (negb (up_ok r)); rewrite bind_run, lift_run, J; reflexivity.
Qed.

Lemma chat_try_success (req : request) (startTime : Z) (msgs sp : value)
    (sanitized : list Message) (r : upstream_response)
    (data blocks block text usage used len : value) (w : world) :
  destructure_body (req_body req) = Return (msgs, sp) ->
  truthy msgs = true ->
  validateMessages msgs = Return true ->
  sanitize_all msgs = Return sanitized ->
  fetch env (call_for config sanitized sp) = Return r ->
  up_ok r = true ->
  up_json r = Return data ->
  get data "content" = Return blocks ->
  get0 blocks = Return block ->
  get block "text" = Return text ->
  get data "usage" = Return usage ->
  get data "model" = Return used ->
  optional_length msgs = Return len ->
  chat_try JSON_stringify config env req startTime w
  = (Return tt,
     {| clock_reads := S (S (clock_reads w));
        console_log :=
          console_log w
          ++ [{| timestamp := Date_now env (S (clock_reads w));
                 ip := req_ip req;
                 success := true;
                 responseTime :=
                   JsString.of_Z (Date_now env (clock_reads w) - startTime)
                   ++ js"ms";
                 messagesCount := if truthy len then len
                                  else VNumber (number_of_nat 0) |}];
        console_error := console_error w;
        fetched := fetched w ++ [call_for config sanitized sp];
        responses :=
          responses w
          ++ [{| status := 200; body := ChatOk text usage used |}] |}).
Proof.
  intros D T V S F O J G1 G2 G3 G4 G5 L. unfold chat_try.
  rewrite bind_run, lift_run, D, T. simpl.
  rewrite bind_run, lift_run, V, bind_run, lift_run, S, bind_run.
  unfold do_fetch. fold (call_for config sanitized sp). rewrite F, O. simpl.
  rewrite bind_run, lift_run, J, bind_run. simpl. rewrite bind_run.
  rewrite (logMetrics_exact req _ true msgs len _
             (proj1 (destructure_body_fields _ _ _ D)) L).
  rewrite bind_run, lift_run, G1, bind_run, lift_run, G2.
  rewrite bind_run, lift_run, G3, bind_run, lift_run, G4.
  rewrite bind_run, lift_run, G5. reflexivity.
Qed.

(** X13: the successful relay.  When the conversation is valid and the
    upstream service answers 2xx with a body whose [content[0].text]
    can be read, the handler reads the clock three times, makes one
    call, prints one record (flagged with success, with the time
    between the first two readings and the number of messages) and
    answers 200 with that text and the body's [usage] and [model]. *)
Theorem chat_relays_success (req : request) (items : list value)
    (r : upstream_response) (data blocks block text usage used : value) :
  get (req_body req) "messages" = Return (VArray items) ->
  validateMessages (VArray items) = Return true ->
  (forall call, fetch env call = Return r) ->
  up_ok r = true ->
  up_json r = Return data ->
  get data "content" = Return blocks ->
  get0 blocks = Return block ->
  get block "text" = Return text ->
  get data "usage" = Return usage ->
  get data "model" = Return used ->
  exists sp sanitized,
    get (req_body req) "systemPrompt" = Return sp
    /\ sanitize_all (VArray items) = Return sanitized
    /\ run_chat JSON_stringify config env req
       = {| clock_reads := 3;
            console_log :=
              [{| timestamp := Date_now env 2;
                  ip := req_ip req;
                  success := true;
                  responseTime :=
                    JsString.of_Z (Date_now env 1 - Date_now env 0)
                    ++ js"ms";
                  messagesCount :=
                    VNumber (number_of_nat (List.length items)) |}];
            console_error := [];
            fetched := [call_for config sanitized sp];
            responses :=
              [{| status := 200; body := ChatOk text usage used |}] |}.
Proof.
  intros G V F O J G1 G2 G3 G4 G5.
  destruct (destructure_body_of_messages _ _ G) as [sp D].
  destruct (sanitize_all_validated _ V) as [sanitized S].
  exists sp, sanitized.
  split; [apply (destructure_body_fields _ _ _ D)|]. split; [exact S|].
  assert (Hlen : (List.length items <= body_limit)%nat).
  { apply Validator.validateMessages_ok in V.
    destruct V as (_ & items' & E & Hlen & _). inversion E; subst items'.
    unfold body_limit. lia. }
  rewrite run_chat_unfold.
  rewrite (chat_try_success req _ (VArray items) sp sanitized r
             data blocks block text usage used
             (VNumber (number_of_nat (List.length items))) started
             D eq_refl V S (F _) O J G1 G2 G3 G4 G5 eq_refl).
  cbn [snd]. rewrite (Metrics.count_of_length _ Hlen). reflexivity.
Qed.

(** X14: an upstream 401 whose body parses is answered with status 500
    and the authentication message, without [details], whatever the
    body says and whatever [NODE_ENV] is. *)
Theorem chat_upstream_401 (req : request) (msgs : value)
    (r : upstream_response) (errorData : value) :
  get (req_body req) "messages" = Return msgs ->
  truthy msgs = true ->
  validateMessages msgs = Return true ->
  (forall call, fetch env call = Return r) ->
  up_status r = 401 ->
  up_json r = Return errorData ->
  responses (run_chat JSON_stringify config env req)
  = [{| status := 500; body := ChatError Msg.UpstreamAuth None |}]
  /\ console_error (run_chat JSON_stringify config env req)
     = [api_error JSON_stringify 401 errorData].
Proof.
  intros G T V F Hs J.
  destruct (destructure_body_of_messages _ _ G) as [sp D].
  destruct (sanitize_all_validated _ V) as [sanitized S].
  assert (O : up_ok r = false) by (unfold up_ok; rewrite Hs; reflexivity).
  destruct (run_chat_caught req msgs _ _ G
              (chat_try_upstream_error JSON_stringify config env req _
                 msgs sp sanitized r errorData started
                 D T V S (F _) O J)) as (Hr & He & _).
  rewrite Hr, He, Hs. split; reflexivity.
Qed.

(** X15: an upstream error of any status whose serialized body
    contains the text [API Error: 401] is answered as an
    authentication failure: status 500 with the authentication
    message.  The classification looks for the marker in the whole
    message, the upstream body included. *)
Theorem chat_marker_in_body (req : request) (msgs : value)
    (r : upstream_response) (errorData : value) :
  get (req_body req) "messages" = Return msgs ->
  truthy msgs = true ->
  validateMessages msgs = Return true ->
  (forall call, fetch env call = Return r) ->
  up_ok r = false ->
  up_json r = Return errorData ->
  JsString.includes (js"API Error: 401") (JSON_stringify errorData) = true ->
  responses (run_chat JSON_stringify config env req)
  = [{| status := 500; body := ChatError Msg.UpstreamAuth None |}].
Proof.
  intros G T V F O J Hm.
  destruct (destructure_body_of_messages _ _ G) as [sp D].
  destruct (sanitize_all_validated _ V) as [sanitized S].
  destruct (run_chat_caught req msgs _ _ G
              (chat_try_upstream_error JSON_stringify config env req _
                 msgs sp sanitized r errorData started
                 D T V S (F _) O J)) as (Hr & _).
  rewrite Hr, Markers.api_error_split, (Markers.includes_app_r _ _ _ Hm).
  reflexivity.
Qed.

(** X16: an upstream answer with a three-digit status other than 2xx,
    401 and 429, whose body parses and, serialized, contains neither
    marker, is answered with status 500 and the generic message;
    [details] is the message built from the status and the body in
    development and absent otherwise. *)
Theorem chat_upstream_other_status (req : request) (msgs : value)
    (r : upstream_response) (errorData : value) :
  get (req_body req) "messages" = Return msgs ->
  truthy msgs = true ->
  validateMessages msgs = Return true ->
  (forall call, fetch env call = Return r) ->
  100 <= up_status r <= 999 ->
  up_ok r = false ->
  up_status r <> 401 ->
  up_status r <> 429 ->
  up_json r = Return errorData ->
  JsString.includes (js"API Error: 401") (JSON_stringify errorData) = false ->
  JsString.includes (js"API Error: 429") (JSON_stringify errorData) = false ->
  responses (run_chat JSON_stringify config env req)
  = [{| status := 500;
        body :=
          ChatError Msg.ServerError
            (match NODE_ENV env with
             | Some mode =>
                 if JsString.eqb mode (js"development")
                 then Some (api_error JSON_stringify (up_status r) errorData)
                 else None
             | None => None
             end) |}].
Proof.
  intros G T V F Hc O H401 H429 J B401 B429.
  destruct (destructure_body_of_messages _ _ G) as [sp D].
  destruct (sanitize_all_validated _ V) as [sanitized S].
  destruct (Markers.api_error_head_clear (up_status r) Hc) as [C401 C429].
  destruct (run_chat_caught req msgs _ _ G
              (chat_try_upstream_error JSON_stringify config env req _
                 msgs sp sanitized r errorData started
                 D T V S (F _) O J)) as (Hr & _).
  rewrite Hr. rewrite !Markers.api_error_split.
  rewrite (Markers.includes_clear _ _ _ (C401 H401)), B401.
  rewrite (Markers.includes_clear _ _ _ (C429 H429)), B429.
  reflexivity.
Qed.

(** X17: a call that fails in transport ([fetch] rejects) or whose
    body does not parse ([response.json()] rejects), with a message
    that holds neither marker, is answered with status 500 and the
    generic message, after one call and one record flagged with
    failure.  The status of an answer whose body does not parse plays
    no part; the rejection message appears in [details] in development
    only. *)
Theorem chat_transport_failure (req : request) (msgs : value)
    (e : jsstring) :
  get (req_body req) "messages" = Return msgs ->
  truthy msgs = true ->
  validateMessages msgs = Return true ->
  (forall call,
      fetch env call = Throw e
      \/ exists r, fetch env call = Return r /\ up_json r = Throw e) ->
  JsString.includes (js"API Error: 401") e = false ->
  JsString.includes (js"API Error: 429") e = false ->
  responses (run_chat JSON_stringify config env req)
  = [{| status := 500;
        body :=
          ChatError Msg.ServerError
            (match NODE_ENV env with
             | Some mode =>
                 if JsString.eqb mode (js"development") then Some e
                 else None
             | None => None
             end) |}]
  /\ console_error (run_chat JSON_stringify config env req) = [e]
  /\ map success (console_log (run_chat JSON_stringify config env req))
     = [false]
  /\ List.length (fetched (run_chat JSON_stringify config env req)) = 1%nat.
Proof.
  intros G T V F E401 E429.
  destruct (destructure_body_of_messages _ _ G) as [sp D].
  destruct (sanitize_all_validated _ V) as [sanitized S].
  destruct (run_chat_caught req msgs _ _ G
              (chat_try_transport req _ msgs sp sanitized e started
                 D T V S (F _))) as (Hr & He & Hl).
  rewrite Hr, He, Hl, E401, E429.
  rewrite run_chat_fetched_try.
  rewrite (chat_try_fetches req _ msgs sp sanitized started D T V S).
  repeat split.
Qed.

(** *** Edges *)

Lemma trim_blank (s : jsstring) :
  forallb JsString.is_space s = true -> JsString.trim s = [].
Proof.
  intros H. unfold JsString.trim.
  assert (E : JsString.trimStart s = []).
  { induction s as [|c s IH]; [reflexivity|].
    simpl in H |- *. apply andb_true_iff in H. destruct H as [Hc Hs].
    rewrite Hc. apply IH, Hs. }
  rewrite E. reflexivity.
Qed.

(** X18: a truthy [systemPrompt] that is not a string ([true], a
    number, an array, an object), or that is a string of white space
    only, puts a [system] field in the upstream request whose value is
    the empty string. *)
Theorem chat_system_can_be_empty (req : request) (call : fetch_call)
    (systemPrompt : value) :
  In call (fetched (run_chat JSON_stringify config env req)) ->
  get (req_body req) "systemPrompt" = Return systemPrompt ->
  truthy systemPrompt = true ->
  (forall s, systemPrompt = VString s ->
             forallb JsString.is_space s = true) ->
  system (payload call) = Some [].
Proof.
  intros Hin G T Hblank.
  destruct (run_chat_fetched JSON_stringify config env req call Hin)
    as (msgs & sp & l & D & _ & _ & _ & ->).
  destruct (destructure_body_fields _ _ _ D) as [_ G'].
  rewrite G in G'. inversion G'; subst sp. simpl. rewrite T.
  destruct systemPrompt; try reflexivity.
  rewrite Sanitizer.sanitizeInput_string, (trim_blank s (Hblank s eq_refl)).
  reflexivity.
Qed.

(** X19: on a request whose body is [null] or [undefined] the handler
    answers nothing.  The destructuring throws, the [catch] block
    writes the message to [console.error] and reads the clock, and then
    [logMetrics] throws in its turn while reading [req.body.messages]:
    the handler ends with that exception, having sent no response,
    printed no record and made no call. *)
Theorem chat_without_body (req : request) :
  req_body req = VUndefined \/ req_body req = VNull ->
  chat JSON_stringify config env req initial
  = (Throw (TypeError_read (req_body req) "messages"),
     {| clock_reads := 3;
        console_log := [];
        console_error := [TypeError_destructure (req_body req)];
        fetched := [];
        responses := [] |}).
Proof.
  destruct req as [client b]. simpl. intros [->| ->]; reflexivity.
Qed.

(** C6 (amended): how an upstream 429 is answered, for a request that
    reached the upstream call.  When the body parses as JSON and,
    serialized, does not contain the text [API Error: 401], the answer
    is status 429 with the retry-later message.  When the body does not
    parse, [response.json()] rejects before the [API Error: 429]
    message is built and the answer follows from the rejection message
    alone: if it holds neither [API Error: 401] nor [API Error: 429],
    status 500 with the generic message ([details] in development
    only); if it holds [API Error: 429] and not [API Error: 401],
    status 429 with the retry-later message. *)
Theorem upstream_429_answer (req : request) (msgs : value)
    (r : upstream_response) :
  get (req_body req) "messages" = Return msgs ->
  truthy msgs = true ->
  validateMessages msgs = Return true ->
  (forall call, fetch env call = Return r) ->
  up_status r = 429 ->
  (forall errorData,
      up_json r = Return errorData ->
      JsString.includes (js"API Error: 401") (JSON_stringify errorData)
      = false ->
      responses (run_chat JSON_stringify config env req)
      = [{| status := 429;
            body := ChatError Msg.UpstreamRateLimited None |}])
  /\ (forall e,
        up_json r = Throw e ->
        JsString.includes (js"API Error: 401") e = false ->
        (JsString.includes (js"API Error: 429") e = false ->
         responses (run_chat JSON_stringify config env req)
         = [{| status := 500;
               body :=
                 ChatError Msg.ServerError
                   (match NODE_ENV env with
                    | Some mode =>
                        if JsString.eqb mode (js"development") then Some e
                        else None
                    | None => None
                    end) |}])
        /\ (JsString.includes (js"API Error: 429") e = true ->
            responses (run_chat JSON_stringify config env req)
            = [{| status := 429;
                  body := ChatError Msg.UpstreamRateLimited None |}])).
Proof.
  intros G T V F Hs.
  destruct (destructure_body_of_messages _ _ G) as [sp D].
  destruct (sanitize_all_validated _ V) as [sanitized S].
  assert (O : up_ok r = false) by (unfold up_ok; rewrite Hs; reflexivity).
  split.
  - intros errorData J H401.
    destruct (run_chat_caught req msgs _ _ G
                (chat_try_upstream_error JSON_stringify config env req _
                   msgs sp sanitized r errorData started
                   D T V S (F _) O J)) as (Hr & _).
    rewrite Hr, Hs.
    rewrite (api_error_429_has_401 JSON_stringify), H401.
    rewrite (api_error_429_has_429 JSON_stringify). reflexivity.
  - intros e J H401.
    assert (Hf : fetch env (call_for config sanitized sp) = Throw e
                 \/ exists r', fetch env (call_for config sanitized sp)
                               = Return r' /\ up_json r' = Throw e)
      by (right; exists r; split; [apply F | exact J]).
    destruct (run_chat_caught req msgs _ _ G
                (chat_try_transport req _ msgs sp sanitized e started
                   D T V S Hf)) as (Hr & _).
    rewrite Hr, H401. split; intros H429; rewrite H429; reflexivity.
Qed.

End ChatRuns.

(** ** The further properties on concrete requests *)

Lemma logMetrics_record_witness :
  exists count,
    logMetrics (sample_env (Return sample_reply)) (post [(js"messages", VString (js"abc"))]) 12 false initial
    = (Return tt,
       {| clock_reads := 1;
          console_log :=
            [{| timestamp := 0%Z;
                ip := js"203.0.113.7";
                success := false;
                responseTime := js"12ms";
                messagesCount := count |}];
          console_error := [];
          fetched := [];
          responses := [] |})
    /\ count = VNumber (number_of_nat 3).
Proof.
  destruct (proj1 (logMetrics_record (sample_env (Return sample_reply))
                     (post [(js"messages", VString (js"abc"))])
                     12 false initial)
              (VString (js"abc")) eq_refl) as (count & E & _ & Hs & _).
  exists count. split; [exact E|].
  apply (Hs (js"abc") eq_refl). apply Nat.leb_le. vm_compute. reflexivity.
Defined.


Lemma chat_calls_upstream_once_witness :
  exists call,
    fetched (run_chat stringify_plain sample_config
               (sample_env (Return sample_reply)) ciao) = [call]
    /\ url call = ANTHROPIC_API_URL sample_config
    /\ x_api_key call = ANTHROPIC_API_KEY sample_config.
Proof.
  apply (proj1 (chat_calls_upstream_once stringify_plain sample_config
                  (sample_env (Return sample_reply)) ciao)).
  exists (VArray [user_message (js"ciao")]). repeat split.
Defined.

Lemma chat_sends_sanitized_conversation_witness :
  exists items,
    get (req_body ciao) "messages" = Return (VArray items)
    /\ (1 <= List.length items <= 50)%nat
    /\ Forall2 (fun msg sent =>
                  get msg "role" = Return (role sent)
                  /\ is_known_role (role sent) = true
                  /\ exists c, get msg "content" = Return c
                               /\ truthy c = true
                               /\ content sent = sanitizeInput c)
         items
         [{| role := VString (js"user"); content := js"ciao" |}].
Proof.
  apply (chat_sends_sanitized_conversation stringify_plain sample_config
           (sample_env (Return sample_reply)) ciao
           (call_for sample_config
              [{| role := VString (js"user"); content := js"ciao" |}]
              VUndefined)).
  vm_compute. left. reflexivity.
Defined.

Lemma chat_answers_once_witness :
  exists answer,
    responses (run_chat stringify_plain sample_config
                 (sample_env (Return (sample_failure 503))) ciao)
    = [answer]
    /\ (status answer = 200 \/ status answer = 400
        \/ status answer = 429 \/ status answer = 500)
    /\ (status answer = 400
        <-> truthy (VArray [user_message (js"ciao")]) = false).
Proof.
  apply (chat_answers_once stringify_plain sample_config
           (sample_env (Return (sample_failure 503))) ciao
           (VArray [user_message (js"ciao")])).
  reflexivity.
Defined.

Lemma chat_records_match_answer_witness :
  map success
    (console_log (run_chat stringify_plain sample_config
                    (sample_env (Return sample_reply)) ciao))
  = [true]
  /\ console_error (run_chat stringify_plain sample_config
                      (sample_env (Return sample_reply)) ciao) = [].
Proof.
  refine (proj1 (proj2 (chat_records_match_answer stringify_plain
                          sample_config (sample_env (Return sample_reply))
                          ciao (VArray [user_message (js"ciao")])
                          {| status := 200;
                             body := ChatOk (VString (js"hello"))
                                       (VObject []) (VString (js"m")) |}
                          eq_refl _)) eq_refl).
  vm_compute. left. reflexivity.
Defined.

Lemma chat_details_only_in_development_witness :
  NODE_ENV (sample_development_env (Return sample_reply))
  = Some (js"development")
  /\ 500 = 500
  /\ Msg.ServerError = Msg.ServerError
  /\ console_error
       (run_chat stringify_plain sample_config
          (sample_development_env (Return sample_reply))
          (post [(js"messages", VArray [])]))
     = [Msg.EmptyConversation].
Proof.
  apply (chat_details_only_in_development stringify_plain sample_config
           (sample_development_env (Return sample_reply))
           (post [(js"messages", VArray [])]) (VArray [])
           {| status := 500;
              body := ChatError Msg.ServerError
                        (Some Msg.EmptyConversation) |}
           Msg.ServerError Msg.EmptyConversation).
  - reflexivity.
  - vm_compute. left. reflexivity.
  - reflexivity.
Defined.

Lemma chat_relays_success_witness :
  exists sp sanitized,
    get (req_body ciao) "systemPrompt" = Return sp
    /\ sanitize_all (VArray [user_message (js"ciao")]) = Return sanitized
    /\ run_chat stringify_plain sample_config
         (sample_env (Return sample_reply)) ciao
       = {| clock_reads := 3;
            console_log :=
              [{| timestamp := 20;
                  ip := req_ip ciao;
                  success := true;
                  responseTime := JsString.of_Z (10 - 0) ++ js"ms";
                  messagesCount := VNumber (number_of_nat 1) |}];
            console_error := [];
            fetched := [call_for sample_config sanitized sp];
            responses :=
              [{| status := 200;
                  body := ChatOk (VString (js"hello")) (VObject [])
                            (VString (js"m")) |}] |}.
Proof.
  apply (chat_relays_success stringify_plain sample_config
           (sample_env (Return sample_reply)) ciao
           [user_message (js"ciao")] sample_reply
           (VObject
              [(js"content",
                VArray [VObject [(js"text", VString (js"hello"))]]);
               (js"usage", VObject []);
               (js"model", VString (js"m"))])
           (VArray [VObject [(js"text", VString (js"hello"))]])
           (VObject [(js"text", VString (js"hello"))])
           (VString (js"hello")) (VObject []) (VString (js"m")));
    reflexivity.
Defined.

Lemma chat_upstream_401_witness :
  responses (run_chat stringify_plain sample_config
               (sample_development_env (Return (sample_failure 401))) ciao)
  = [{| status := 500; body := ChatError Msg.UpstreamAuth None |}]
  /\ console_error
       (run_chat stringify_plain sample_config
          (sample_development_env (Return (sample_failure 401))) ciao)
     = [api_error stringify_plain 401 (VObject [])].
Proof.
  apply (chat_upstream_401 stringify_plain sample_config
           (sample_development_env (Return (sample_failure 401))) ciao
           (VArray [user_message (js"ciao")]) (sample_failure 401)
           (VObject []));
    reflexivity.
Defined.

Lemma chat_marker_in_body_witness :
  responses
    (run_chat stringify_plain sample_config
       (sample_env
          (Return (sample_text_failure 429 (js"see API Error: 401"))))
       ciao)
  = [{| status := 500; body := ChatError Msg.UpstreamAuth None |}].
Proof.
  apply (chat_marker_in_body stringify_plain sample_config
           (sample_env
              (Return (sample_text_failure 429 (js"see API Error: 401"))))
           ciao (VArray [user_message (js"ciao")])
           (sample_text_failure 429 (js"see API Error: 401"))
           (VString (js"see API Error: 401")));
    reflexivity.
Defined.

Lemma chat_upstream_other_status_witness :
  responses
    (run_chat stringify_plain sample_config
       (sample_development_env (Return (sample_failure 503))) ciao)
  = [{| status := 500;
        body := ChatError Msg.ServerError
                  (Some (api_error stringify_plain 503 (VObject []))) |}].
Proof.
  apply (chat_upstream_other_status stringify_plain sample_config
           (sample_development_env (Return (sample_failure 503))) ciao
           (VArray [user_message (js"ciao")]) (sample_failure 503)
           (VObject []));
    try reflexivity.
  - simpl. lia.
  - discriminate.
  - discriminate.
Defined.

Lemma chat_transport_failure_witness :
  responses
    (run_chat stringify_plain sample_config
       (sample_env (Return sample_unparsable_429)) ciao)
  = [{| status := 500; body := ChatError Msg.ServerError None |}]
  /\ console_error
       (run_chat stringify_plain sample_config
          (sample_env (Return sample_unparsable_429)) ciao)
     = [js"Unexpected token < in JSON at position 0"]
  /\ map success
       (console_log
          (run_chat stringify_plain sample_config
             (sample_env (Return sample_unparsable_429)) ciao))
     = [false]
  /\ List.length
       (fetched
          (run_chat stringify_plain sample_config
             (sample_env (Return sample_unparsable_429)) ciao))
     = 1%nat.
Proof.
  apply (chat_transport_failure stringify_plain sample_config
           (sample_env (Return sample_unparsable_429)) ciao
           (VArray [user_message (js"ciao")])
           (js"Unexpected token < in JSON at position 0"));
    try reflexivity.
  intros call. right. exists sample_unparsable_429. split; reflexivity.
Defined.

Lemma chat_system_can_be_empty_witness :
  Some (sanitizeInput (VBool true)) = Some [].
Proof.
  apply (chat_system_can_be_empty stringify_plain sample_config
           (sample_env (Return sample_reply))
           (post [(js"messages", VArray [user_message (js"ciao")]);
                  (js"systemPrompt", VBool true)])
           (call_for sample_config
              [{| role := VString (js"user"); content := js"ciao" |}]
              (VBool true))
           (VBool true)).
  - vm_compute. left. reflexivity.
  - reflexivity.
  - reflexivity.
  - intros s H. discriminate H.
Defined.

Lemma chat_without_body_witness :
  chat stringify_plain sample_config (sample_env (Return sample_reply))
    {| req_ip := js"203.0.113.7"; req_body := VUndefined |} initial
  = (Throw (js"Cannot read properties of undefined (reading 'messages')"),
     {| clock_reads := 3;
        console_log := [];
        console_error :=
          [js"Cannot destructure property 'messages' of 'req.body' as it is undefined."];
        fetched := [];
        responses := [] |}).
Proof.
  apply (chat_without_body stringify_plain sample_config
           (sample_env (Return sample_reply))
           {| req_ip := js"203.0.113.7"; req_body := VUndefined |}).
  left. reflexivity.
Defined.

Lemma upstream_429_answer_witness :
  responses
    (run_chat stringify_plain sample_config
       (sample_env (Return (sample_failure 429))) ciao)
  = [{| status := 429; body := ChatError Msg.UpstreamRateLimited None |}]
  /\ responses
       (run_chat stringify_plain sample_config
          (sample_env (Return sample_unparsable_429)) ciao)
     = [{| status := 500; body := ChatError Msg.ServerError None |}]
  /\ responses
       (run_chat stringify_plain sample_config
          (sample_env
             (Return {| up_status := 429;
                        up_json :=
                          Throw (js"Unexpected token A, API Error: 429 is not valid JSON") |}))
          ciao)
     = [{| status := 429; body := ChatError Msg.UpstreamRateLimited None |}].
Proof.
  split; [|split].
  - apply (proj1 (upstream_429_answer stringify_plain sample_config
                    (sample_env (Return (sample_failure 429))) ciao
                    (VArray [user_message (js"ciao")]) (sample_failure 429)
                    eq_refl eq_refl eq_refl (fun _ => eq_refl) eq_refl)
             (VObject []));
      reflexivity.
  - apply (proj1 (proj2 (upstream_429_answer stringify_plain sample_config
                           (sample_env (Return sample_unparsable_429)) ciao
                           (VArray [user_message (js"ciao")])
                           sample_unparsable_429
                           eq_refl eq_refl eq_refl (fun _ => eq_refl)
                           eq_refl)
                    (js"Unexpected token < in JSON at position 0")
                    eq_refl eq_refl));
      reflexivity.
  - apply (proj2 (proj2 (upstream_429_answer stringify_plain sample_config
                           (sample_env
                              (Return {| up_status := 429;
                                         up_json :=
                                           Throw (js"Unexpected token A, API Error: 429 is not valid JSON") |}))
                           ciao (VArray [user_message (js"ciao")])
                           {| up_status := 429;
                              up_json :=
                                Throw (js"Unexpected token A, API Error: 429 is not valid JSON") |}
                           eq_refl eq_refl eq_refl (fun _ => eq_refl)
                           eq_refl)
                    (js"Unexpected token A, API Error: 429 is not valid JSON")
                    eq_refl eq_refl));
      reflexivity.
Defined.
